(** * ai_companion: the agent core (memory, tool registry, task executor)

    A shallow embedding of [src/agents/core/memory.py],
    [src/agents/core/tools.py] and [src/agents/core/agent_executor.py],
    followed by the properties of these modules.

    Conventions.
    - Python [int] is [Z]; Python [str] is [string]; a Python [list] is a
      [list]; a Python [dict] is an association list in insertion order
      (module [PyDict]), because [dict.values()] iterates in that order.
    - A call that may raise returns an [outcome]; code that writes to the
      event queue lives in the monad [Exec], whose state is the ordered
      trace of effects performed so far. *)

From Stdlib Require Import String Ascii Bool ZArith Lia List.
Import ListNotations.

Local Open Scope string_scope.
Local Open Scope list_scope.
Local Open Scope Z_scope.

(* ================================================================== *)
(** * Python built-ins used by the sources *)
(* ================================================================== *)

Module Py.

(** [l[i:]] for an arbitrary integer [i]: a negative index counts from
    the end, and the start is clamped to [0 .. len(l)]. *)
Definition slice_from {A : Type} (i : Z) (l : list A) : list A :=
  let n := Z.of_nat (length l) in
  let start := if i <? 0 then Z.max (n + i) 0 else Z.min i n in
  skipn (Z.to_nat start) l.

(** Truth value of an [int] in a condition: only [0] is false. An
    [Optional[int]] that is [None] is false as well. *)
Definition truthy_int (n : Z) : bool := negb (n =? 0).

(** Truth value of a [str]: only the empty string is false. *)
Definition truthy_str (s : string) : bool :=
  match s with
  | EmptyString => false
  | String _ _ => true
  end.

(** The [k] last elements of [l] (all of [l] when it is shorter). *)
Definition lastn {A : Type} (k : nat) (l : list A) : list A :=
  skipn (length l - k) l.

End Py.

(* ================================================================== *)
(** * Messages ([a2a.types]) *)
(* ================================================================== *)

(** Modelled from the spec: the enumeration [MessageRole] of the external
    package [a2a.types]; the sources name [USER] and [ASSISTANT], the
    specification adds the system role. Its members are ordinary enum
    members, hence true in a condition. *)
Inductive MessageRole : Type := USER | ASSISTANT | SYSTEM.

Definition MessageRole_eqb (a b : MessageRole) : bool :=
  match a, b with
  | USER, USER | ASSISTANT, ASSISTANT | SYSTEM, SYSTEM => true
  | _, _ => false
  end.

(** Modelled from the spec: the content parts of [a2a.types]. Only
    [TextPart] carries a [text]; the other modalities are opaque to the
    core and are kept as a file reference or a data blob. *)
Inductive MessagePart : Type :=
| TextPart (text : string)
| FilePart (uri : string)
| DataPart (data : string).

Record Message : Type := mkMessage {
  role : MessageRole;
  parts : list MessagePart
}.

(** [isinstance(part, TextPart)] *)
Definition is_TextPart (p : MessagePart) : bool :=
  match p with
  | TextPart _ => true
  | _ => false
  end.

(* ================================================================== *)
(** * [memory.py]: AgentMemory *)
(* ================================================================== *)

Module AgentMemory.

(** The fields of [AgentMemory] that [add_message] and [get_messages]
    read or write. *)
Record t : Type := mk {
  max_messages : Z;
  messages : list Message
}.

(** [AgentMemory(max_messages)] *)
Definition init (max_messages : Z) : t :=
  {| max_messages := max_messages; messages := [] |}.

(** [add_message]: append, then trim when the length exceeds the
    maximum, with the slice [self.messages[-self.max_messages:]]. *)
Definition add_message (message : Message) (self : t) : t :=
  let appended := messages self ++ [message] in
  {| max_messages := max_messages self;
     messages :=
       if Z.of_nat (length appended) >? max_messages self
       then Py.slice_from (- max_messages self) appended
       else appended |}.

(** A sequence of [add_message] calls, in order. *)
Definition add_messages (ms : list Message) (self : t) : t :=
  fold_left (fun s m => add_message m s) ms self.

(** [get_messages(last_n, role)]: the role filter runs under [if role:]
    and the truncation under [if last_n:]. *)
Definition get_messages (last_n : option Z) (role_filter : option MessageRole)
           (self : t) : list Message :=
  let selected := messages self in
  let selected :=
    match role_filter with
    | Some r => filter (fun m => MessageRole_eqb (role m) r) selected
    | None => selected
    end in
  match last_n with
  | Some n =>
      if Py.truthy_int n then Py.slice_from (- n) selected else selected
  | None => selected
  end.

(** [clear] *)
Definition clear (self : t) : t :=
  {| max_messages := max_messages self; messages := [] |}.

(** The specification's reading of [query]: filter by role first, then
    keep the [n] most recent of what is left. *)
Definition query_spec (n : Z) (r : MessageRole) (history : list Message)
  : list Message :=
  Py.lastn (Z.to_nat n) (filter (fun m => MessageRole_eqb (role m) r) history).

(** Modelled from the spec: the [value] of a [MessageRole] member, the
    lower-case role name that [get_conversation_history] prints. *)
Definition role_value (r : MessageRole) : string :=
  match r with
  | USER => "user"
  | ASSISTANT => "assistant"
  | SYSTEM => "system"
  end.

(** The inner loop of [get_conversation_history]: the [text] of every
    part that has one, in order. *)
Fixpoint text_parts (ps : list MessagePart) : list string :=
  match ps with
  | [] => []
  | TextPart text :: rest => text :: text_parts rest
  | _ :: rest => text_parts rest
  end.

(** The separator [double newline] between two rendered messages. *)
Definition blank_line : string :=
  String (ascii_of_nat 10) (String (ascii_of_nat 10) EmptyString).

(** The outer loop: one line [role: texts joined by a space] per message
    with at least one text, nothing for the other messages. *)
Fixpoint history_parts (ms : list Message) : list string :=
  match ms with
  | [] => []
  | msg :: rest =>
      match text_parts (parts msg) with
      | [] => history_parts rest
      | texts =>
          (role_value (role msg) ++ ": " ++ String.concat " " texts)%string
          :: history_parts rest
      end
  end.

(** [get_conversation_history] *)
Definition get_conversation_history (self : t) : string :=
  String.concat blank_line (history_parts (messages self)).

End AgentMemory.

(* ================================================================== *)
(** * Exceptions and results of calls *)
(* ================================================================== *)

(** A raised exception: its class name, [str(e)], and whether its
    class derives from [Exception], which is what a handler
    [except Exception] catches. [asyncio.CancelledError],
    [KeyboardInterrupt] and [SystemExit] derive from [BaseException]
    only. *)
Record exn : Type := mkExn {
  exn_class : string;
  exn_str : string;
  is_Exception : bool
}.

Definition ValueError (msg : string) : exn := mkExn "ValueError" msg true.
Definition TypeError (msg : string) : exn := mkExn "TypeError" msg true.

(** [asyncio.CancelledError()] *)
Definition CancelledError : exn := mkExn "CancelledError" "" false.

(** A call either returns a value or raises. *)
Inductive outcome (A : Type) : Type :=
| Return (a : A)
| Raise (e : exn).

Arguments Return {A} a.
Arguments Raise {A} e.

Definition raised {A : Type} (o : outcome A) : bool :=
  match o with
  | Return _ => false
  | Raise _ => true
  end.

(* ================================================================== *)
(** * Python dictionaries, in insertion order *)
(* ================================================================== *)

Module PyDict.

Definition t (V : Type) : Type := list (string * V).

Definition empty {V : Type} : t V := [].

(** [d.get(k)] *)
Fixpoint get {V : Type} (k : string) (d : t V) : option V :=
  match d with
  | [] => None
  | (k', v) :: rest => if String.eqb k k' then Some v else get k rest
  end.

(** [d[k] = v]: an existing key keeps its position, a new key goes to
    the end. *)
Fixpoint set {V : Type} (k : string) (v : V) (d : t V) : t V :=
  match d with
  | [] => [(k, v)]
  | (k', v') :: rest =>
      if String.eqb k k' then (k', v) :: rest else (k', v') :: set k v rest
  end.

(** [del d[k]] for a key that is present; nothing changes otherwise. *)
Fixpoint del {V : Type} (k : string) (d : t V) : t V :=
  match d with
  | [] => []
  | (k', v') :: rest =>
      if String.eqb k k' then rest else (k', v') :: del k rest
  end.

(** [k in d] *)
Definition contains {V : Type} (k : string) (d : t V) : bool :=
  match get k d with
  | Some _ => true
  | None => false
  end.

Definition keys {V : Type} (d : t V) : list string := map fst d.
Definition values {V : Type} (d : t V) : list V := map snd d.
Definition len {V : Type} (d : t V) : nat := length d.

End PyDict.

#[local] Set Warnings "-register-all".

(** JSON-like data: what a parameter schema and an exported tool schema
    are made of. *)
Inductive json : Type :=
| JNull
| JBool (b : bool)
| JNum (z : Z)
| JStr (s : string)
| JList (items : list json)
| JDict (fields : PyDict.t json).

(* ================================================================== *)
(** * [tools.py]: ToolRegistry *)
(* ================================================================== *)

(** Tool bodies are arbitrary Python functions: they act on a world
    [W] (whatever state they can reach) and return or raise. Logging
    through [structlog] is not modelled. *)
Module Tools.

Section Defs.

Variable W : Type.

(** The values a tool can return. A coroutine object is a suspended
    body: nothing of it has run until it is awaited. *)
Inductive pyobj : Type :=
| PNone
| PInt (z : Z)
| PStr (s : string)
| PCoroutine (resume : W -> outcome pyobj * W).

Definition kwargs : Type := PyDict.t pyobj.

(** A callable is a plain function ([def]) or a coroutine function
    ([async def]). Calling either one first binds the keyword arguments
    to the parameters, which raises a [TypeError] when they do not match
    the signature. For a plain function the binding is part of [body],
    which runs at the call. For a coroutine function the call only binds:
    [bind_error] gives the message of the [TypeError] for arguments that
    do not match and [None] for arguments that do, and [body] is what
    runs when the coroutine is awaited. *)
Inductive callable : Type :=
| SyncFn (body : kwargs -> W -> outcome pyobj * W)
| AsyncFn (bind_error : kwargs -> option string)
          (body : kwargs -> W -> outcome pyobj * W).

Definition is_coroutine_function (f : callable) : bool :=
  match f with
  | SyncFn _ => false
  | AsyncFn _ _ => true
  end.

(** Calling [f] with keyword arguments: a plain function runs its
    body; a coroutine function binds the arguments and, when they match,
    returns a coroutine object, running nothing of its body. *)
Definition call (f : callable) (kw : kwargs) (w : W) : outcome pyobj * W :=
  match f with
  | SyncFn body => body kw w
  | AsyncFn bind_error body =>
      match bind_error kw with
      | Some msg => (Raise (TypeError msg), w)
      | None => (Return (PCoroutine (body kw)), w)
      end
  end.

Definition type_name (v : pyobj) : string :=
  match v with
  | PNone => "NoneType"
  | PInt _ => "int"
  | PStr _ => "str"
  | PCoroutine _ => "coroutine"
  end.

(** [await v]: a coroutine object is run to its end; any other of the
    values above is not awaitable. *)
Definition await (v : pyobj) (w : W) : outcome pyobj * W :=
  match v with
  | PCoroutine resume => resume w
  | _ =>
      (Raise (TypeError ("object " ++ type_name v
                         ++ " can't be used in 'await' expression")%string), w)
  end.

(** Whether [await] accepts the value. *)
Definition awaitable (v : pyobj) : bool :=
  match v with
  | PCoroutine _ => true
  | _ => false
  end.

Record ToolDefinition : Type := mkTool {
  name : string;
  description : string;
  parameters : PyDict.t json;
  function : callable;
  tags : list string
}.

(** The field [self.tools] of a [ToolRegistry]. *)
Definition ToolRegistry : Type := PyDict.t ToolDefinition.

(** [ToolRegistry()] *)
Definition new_registry : ToolRegistry := PyDict.empty.

(** [x or default] for an optional dictionary or list. *)
Definition or_empty {A : Type} (o : option (list A)) : list A :=
  match o with
  | Some l => l
  | None => []
  end.

Definition register (name description : string) (function : callable)
           (parameters : option (PyDict.t json)) (tags : option (list string))
           (self : ToolRegistry) : ToolRegistry :=
  let tool := {| name := name;
                 description := description;
                 parameters := or_empty parameters;
                 function := function;
                 tags := or_empty tags |} in
  PyDict.set name tool self.

Definition get_tool (name : string) (self : ToolRegistry)
  : option ToolDefinition :=
  PyDict.get name self.

(** [unregister]: the registry afterwards and the returned flag. *)
Definition unregister (name : string) (self : ToolRegistry)
  : ToolRegistry * bool :=
  if PyDict.contains name self
  then (PyDict.del name self, true)
  else (self, false).

(** [execute_tool], called with a name and keyword arguments. The handler of the [try] logs and
    re-raises, so an exception of the tool leaves unchanged. *)
Definition execute_tool (name : string) (kw : kwargs)
           (self : ToolRegistry) (w : W) : outcome pyobj * W :=
  match get_tool name self with
  | None => (Raise (ValueError ("Tool not found: " ++ name)%string), w)
  | Some tool => call (function tool) kw w
  end.

(** [execute_tool_async]: the same, with [await] applied to what the
    call of [tool.function] returns. *)
Definition execute_tool_async (name : string) (kw : kwargs)
           (self : ToolRegistry) (w : W) : outcome pyobj * W :=
  match get_tool name self with
  | None => (Raise (ValueError ("Tool not found: " ++ name)%string), w)
  | Some tool =>
      match call (function tool) kw w with
      | (Return v, w') => await v w'
      | (Raise e, w') => (Raise e, w')
      end
  end.

(** The registries a program can build: [ToolRegistry()] followed by
    calls of [register] and [unregister]. *)
Inductive reachable : ToolRegistry -> Prop :=
| reachable_new : reachable new_registry
| reachable_register n d f p t r :
    reachable r -> reachable (register n d f p t r)
| reachable_unregister n r :
    reachable r -> reachable (fst (unregister n r)).

(** [get_all_tools]: a copy of the dictionary. *)
Definition get_all_tools (self : ToolRegistry) : PyDict.t ToolDefinition :=
  self.

(** [tag in tool.tags] *)
Definition has_tag (tag : string) (tool : ToolDefinition) : bool :=
  existsb (String.eqb tag) (tags tool).

(** [get_tools_by_tag]: the comprehension over [self.tools.values()]. *)
Definition get_tools_by_tag (tag : string) (self : ToolRegistry)
  : list ToolDefinition :=
  filter (has_tag tag) (PyDict.values self).

(** [decorator(name, description, parameters, tags)] applied to [func]:
    the registry afterwards and the function handed back. *)
Definition decorator (name description : string)
           (parameters : option (PyDict.t json)) (tags : option (list string))
           (self : ToolRegistry) (func : callable) : ToolRegistry * callable :=
  (register name description func parameters tags self, func).

(** [len(registry)] *)
Definition len (self : ToolRegistry) : Z := Z.of_nat (PyDict.len self).

(** [name in registry] *)
Definition contains (name : string) (self : ToolRegistry) : bool :=
  PyDict.contains name self.

(** One entry of [get_tool_schemas]. *)
Definition tool_schema (tool : ToolDefinition) : json :=
  JDict [ ("type", JStr "function");
          ("function",
           JDict [ ("name", JStr (name tool));
                   ("description", JStr (description tool));
                   ("parameters", JDict (parameters tool)) ]) ].

(** [get_tool_schemas]: the loop over [self.tools.values()]. *)
Definition get_tool_schemas (self : ToolRegistry) : list json :=
  fold_left (fun schemas tool => schemas ++ [tool_schema tool])
            (PyDict.values self) [].

(** The specification's descriptor of a tool:
    [{name, description, parameters}]. *)
Definition neutral_descriptor (tool : ToolDefinition) : json :=
  JDict [ ("name", JStr (name tool));
          ("description", JStr (description tool));
          ("parameters", JDict (parameters tool)) ].

(** The specification's [export_schemas]. *)
Definition export_schemas_spec (self : ToolRegistry) : list json :=
  map neutral_descriptor (PyDict.values self).

End Defs.

Arguments PNone {W}.
Arguments PInt {W} z.
Arguments PStr {W} s.
Arguments PCoroutine {W} resume.
Arguments SyncFn {W} body.
Arguments AsyncFn {W} bind_error body.
Arguments mkTool {W}.
Arguments name {W} t.
Arguments description {W} t.
Arguments parameters {W} t.
Arguments function {W} t.
Arguments tags {W} t.
Arguments is_coroutine_function {W} f.
Arguments call {W} f kw w.
Arguments await {W} v w.
Arguments awaitable {W} v.
Arguments type_name {W} v.
Arguments new_registry {W}.
Arguments register {W}.
Arguments get_tool {W}.
Arguments unregister {W}.
Arguments execute_tool {W}.
Arguments execute_tool_async {W}.
Arguments reachable {W}.
Arguments get_all_tools {W}.
Arguments has_tag {W}.
Arguments get_tools_by_tag {W}.
Arguments decorator {W}.
Arguments len {W}.
Arguments contains {W}.
Arguments tool_schema {W}.
Arguments get_tool_schemas {W}.
Arguments neutral_descriptor {W}.
Arguments export_schemas_spec {W}.

End Tools.

(* ================================================================== *)
(** * [agent_executor.py]: BaseAgentExecutor *)
(* ================================================================== *)

(** Modelled from the spec: the enumeration [TaskUpdateType] of the
    external package [a2a.types]. The sources name [IN_PROGRESS],
    [COMPLETED], [FAILED] and [CANCELED]; [SUBMITTED] is the
    specification's first lifecycle event. *)
Inductive TaskUpdateType : Type :=
| SUBMITTED | IN_PROGRESS | COMPLETED | FAILED | CANCELED.

Module TaskUpdate.
Record t : Type := mk {
  task_id : string;
  update_type : TaskUpdateType;
  message : string;
  result : option Message
}.
End TaskUpdate.

Module RequestContext.
Record t : Type := mk {
  task_id : string;
  message : option Message
}.
End RequestContext.

(** What an execution does that its caller can observe, in order: a
    [put] on the event queue, or a call of the processing capability. *)
Inductive effect : Type :=
| Put (update : TaskUpdate.t)
| Process (text : string) (context : RequestContext.t).

(** Computations over the trace of effects, which may raise. *)
Definition Exec (A : Type) : Type := list effect -> outcome A * list effect.

Definition ret {A : Type} (a : A) : Exec A := fun tr => (Return a, tr).

Definition bind {A B : Type} (m : Exec A) (k : A -> Exec B) : Exec B :=
  fun tr =>
    match m tr with
    | (Return a, tr') => k a tr'
    | (Raise e, tr') => (Raise e, tr')
    end.

(** [try: body / except Exception as e: handler]. An exception whose
    class does not derive from [Exception] is not caught: it leaves the
    statement as it is, with the effects performed so far. *)
Definition try_except {A : Type} (body : Exec A) (handler : exn -> Exec A)
  : Exec A :=
  fun tr =>
    match body tr with
    | (Return a, tr') => (Return a, tr')
    | (Raise e, tr') =>
        if is_Exception e then handler e tr' else (Raise e, tr')
    end.

(** [await event_queue.put(update)] *)
Definition put (update : TaskUpdate.t) : Exec unit :=
  fun tr => (Return tt, tr ++ [Put update]).

Declare Scope exec_scope.
Delimit Scope exec_scope with exec.
Notation "x <- m ;; k" := (bind m (fun x => k))
  (at level 61, m at next level, right associativity) : exec_scope.
Notation "m ;; k" := (bind m (fun _ => k))
  (at level 61, right associativity) : exec_scope.

(** The contents of the event queue after a trace. *)
Fixpoint queue_of (tr : list effect) : list TaskUpdate.t :=
  match tr with
  | [] => []
  | Put u :: rest => u :: queue_of rest
  | Process _ _ :: rest => queue_of rest
  end.

(** The texts the processing capability was called with. *)
Fixpoint process_calls (tr : list effect) : list string :=
  match tr with
  | [] => []
  | Put _ :: rest => process_calls rest
  | Process text _ :: rest => text :: process_calls rest
  end.

Module AgentExecutor.

Local Open Scope exec_scope.

(** An executor: its name and the abstract method [process_message],
    which a subclass supplies and which returns a text or raises.
    Logging is not modelled. *)
Record BaseAgentExecutor : Type := mk {
  name : string;
  process_message : string -> RequestContext.t -> outcome string
}.

(** [await self.process_message(message, context)] *)
Definition call_process_message (self : BaseAgentExecutor) (text : string)
           (context : RequestContext.t) : Exec string :=
  fun tr => (process_message self text context, tr ++ [Process text context]).

(** The [TaskUpdate] built by [_send_status_update]. *)
Definition in_progress_update (task_id status : string) : TaskUpdate.t :=
  {| TaskUpdate.task_id := task_id;
     TaskUpdate.update_type := IN_PROGRESS;
     TaskUpdate.message := status;
     TaskUpdate.result := None |}.

Definition _send_status_update (task_id status : string) : Exec unit :=
  put (in_progress_update task_id status).

(** The [TaskUpdate] built by [_send_response], around the response
    message it creates. *)
Definition completed_update (task_id response_text : string) : TaskUpdate.t :=
  let response_message :=
    {| role := ASSISTANT; parts := [TextPart response_text] |} in
  {| TaskUpdate.task_id := task_id;
     TaskUpdate.update_type := COMPLETED;
     TaskUpdate.message := "Task completed successfully";
     TaskUpdate.result := Some response_message |}.

Definition _send_response (task_id response_text : string) : Exec unit :=
  put (completed_update task_id response_text).

(** The [TaskUpdate] built by [_send_error]. *)
Definition failed_update (task_id error_message : string) : TaskUpdate.t :=
  {| TaskUpdate.task_id := task_id;
     TaskUpdate.update_type := FAILED;
     TaskUpdate.message := error_message;
     TaskUpdate.result := None |}.

Definition _send_error (task_id error_message : string) : Exec unit :=
  put (failed_update task_id error_message).

(** The [TaskUpdate] built by [cancel]. *)
Definition canceled_update (task_id : string) : TaskUpdate.t :=
  {| TaskUpdate.task_id := task_id;
     TaskUpdate.update_type := CANCELED;
     TaskUpdate.message := "Task canceled by user";
     TaskUpdate.result := None |}.

(** The loop of [_extract_user_message]: the text of the first
    [TextPart]. *)
Fixpoint first_text (ps : list MessagePart) : option string :=
  match ps with
  | [] => None
  | TextPart text :: _ => Some text
  | _ :: rest => first_text rest
  end.

Definition _extract_user_message (context : RequestContext.t)
  : option string :=
  match RequestContext.message context with
  | None => None
  | Some m =>
      match parts m with
      | [] => None
      | ps => first_text ps
      end
  end.

(** [execute]. The test [not user_message] holds for [None] and for
    the empty text; the [return] after [_send_error] ends the body of
    the [try]. *)
Definition execute (self : BaseAgentExecutor) (context : RequestContext.t)
  : Exec unit :=
  let task_id := RequestContext.task_id context in
  try_except
    (_send_status_update task_id "Processing request..." ;;
     match _extract_user_message context with
     | Some user_message =>
         if negb (Py.truthy_str user_message)
         then _send_error task_id "No valid message content found"
         else
           response <- call_process_message self user_message context ;;
           _send_response task_id response
     | None => _send_error task_id "No valid message content found"
     end)
    (fun e =>
       _send_error task_id ("Execution error: " ++ exn_str e)%string).

(** [cancel] *)
Definition cancel (self : BaseAgentExecutor) (context : RequestContext.t)
  : Exec unit :=
  put (canceled_update (RequestContext.task_id context)).

End AgentExecutor.

(** ** The specification's view of the event queue *)

(** The lifecycle events of the specification. *)
Inductive LifecycleEvent : Type :=
| Submitted
| Progress (message : string)
| Completed (result : option Message)
| Failed (reason : string)
| Canceled.

Definition event_of (u : TaskUpdate.t) : LifecycleEvent :=
  match TaskUpdate.update_type u with
  | SUBMITTED => Submitted
  | IN_PROGRESS => Progress (TaskUpdate.message u)
  | COMPLETED => Completed (TaskUpdate.result u)
  | FAILED => Failed (TaskUpdate.message u)
  | CANCELED => Canceled
  end.


(** The lifecycle events a computation emits when started on an empty
    trace. *)
Definition events {A : Type} (m : Exec A) : list LifecycleEvent :=
  map event_of (queue_of (snd (m []))).


(* ================================================================== *)
(** * [memory.py]: the whole [AgentMemory] object and [RedisBackedMemory] *)
(* ================================================================== *)

Module AgentMemoryObject.

(** An [AgentMemory] with all its fields: the bounded history and the
    [metadata] dictionary, whose values are arbitrary data. *)
Record t : Type := mk {
  store : AgentMemory.t;
  metadata : PyDict.t json
}.

(** [AgentMemory(max_messages)] *)
Definition init (max_messages : Z) : t :=
  {| store := AgentMemory.init max_messages; metadata := PyDict.empty |}.

Definition add_message (message : Message) (self : t) : t :=
  {| store := AgentMemory.add_message message (store self);
     metadata := metadata self |}.

Definition get_messages (last_n : option Z) (role_filter : option MessageRole)
           (self : t) : list Message :=
  AgentMemory.get_messages last_n role_filter (store self).

Definition get_conversation_history (self : t) : string :=
  AgentMemory.get_conversation_history (store self).

(** [clear]: [self.messages.clear()], nothing else. *)
Definition clear (self : t) : t :=
  {| store := AgentMemory.clear (store self); metadata := metadata self |}.

(** [set_metadata]: [self.metadata[key] = value] *)
Definition set_metadata (key : string) (value : json) (self : t) : t :=
  {| store := store self; metadata := PyDict.set key value (metadata self) |}.

(** [get_metadata]: [self.metadata.get(key, default)] *)
Definition get_metadata (key : string) (default : json) (self : t) : json :=
  match PyDict.get key (metadata self) with
  | Some value => value
  | None => default
  end.

(** The dictionary returned by [get_stats]. *)
Record Stats : Type := mkStats {
  total_messages : Z;
  max_messages : Z;
  user_messages : Z;
  assistant_messages : Z;
  metadata_keys : list string
}.

Definition count_role (r : MessageRole) (ms : list Message) : Z :=
  Z.of_nat (length (filter (fun m => MessageRole_eqb (role m) r) ms)).

Definition get_stats (self : t) : Stats :=
  let ms := AgentMemory.messages (store self) in
  {| total_messages := Z.of_nat (length ms);
     max_messages := AgentMemory.max_messages (store self);
     user_messages := count_role USER ms;
     assistant_messages := count_role ASSISTANT ms;
     metadata_keys := PyDict.keys (metadata self) |}.

End AgentMemoryObject.

Module RedisBackedMemory.

Section Defs.

(** The state of the Redis server, whatever it is. *)
Variable R : Type.

(** The two methods of the Redis client that the class calls; each may
    raise. *)
Record RedisClient : Type := mkClient {
  keys : string -> R -> outcome (list string) * R;
  delete : list string -> R -> outcome Z * R
}.

Record t : Type := mk {
  memory : AgentMemoryObject.t;
  redis_client : RedisClient;
  session_id : string;
  ttl : Z;
  key_prefix : string
}.

(** [_load_from_redis] and [_save_to_redis]: the body of each [try] is
    [pass]. *)
Definition _load_from_redis (self : t) : t := self.
Definition _save_to_redis (self : t) : t := self.

(** [RedisBackedMemory(redis_client, session_id, max_messages, ttl)] *)
Definition init (redis_client : RedisClient) (session_id : string)
           (max_messages ttl : Z) : t :=
  _load_from_redis
    {| memory := AgentMemoryObject.init max_messages;
       redis_client := redis_client;
       session_id := session_id;
       ttl := ttl;
       key_prefix := ("agent_memory:" ++ session_id)%string |}.

Definition with_memory (self : t) (m : AgentMemoryObject.t) : t :=
  {| memory := m;
     redis_client := redis_client self;
     session_id := session_id self;
     ttl := ttl self;
     key_prefix := key_prefix self |}.

(** [add_message]: the inherited method, then [_save_to_redis]. *)
Definition add_message (message : Message) (self : t) : t :=
  _save_to_redis
    (with_memory self (AgentMemoryObject.add_message message (memory self))).

(** [clear]: the inherited method, then the keys under the prefix are
    looked up and, when there are any, deleted. The result is the object
    and the server state the call leaves behind; they are the same
    whether an exception of a Redis call is logged by the handler or,
    being outside [Exception], leaves [clear]. *)
Definition clear (self : t) (w : R) : t * R :=
  let cleared := with_memory self (AgentMemoryObject.clear (memory self)) in
  match keys (redis_client self) (key_prefix self ++ ":*")%string w with
  | (Return [], w1) => (cleared, w1)
  | (Return (k :: ks), w1) =>
      (cleared, snd (delete (redis_client self) (k :: ks) w1))
  | (Raise _, w1) => (cleared, w1)
  end.

End Defs.

Arguments mkClient {R}.
Arguments keys {R} r.
Arguments delete {R} r.
Arguments mk {R}.
Arguments memory {R} t.
Arguments redis_client {R} t.
Arguments session_id {R} t.
Arguments ttl {R} t.
Arguments key_prefix {R} t.
Arguments init {R}.
Arguments add_message {R}.
Arguments clear {R}.

End RedisBackedMemory.

(* ================================================================== *)
(** * [agent_executor.py]: StreamingAgentExecutor *)
(* ================================================================== *)

Module StreamingAgentExecutor.

Local Open Scope exec_scope.

(** What a streaming capability does with the event queue it is given:
    the updates it puts, in order, and then its result or exception. *)
Definition streaming_run : Type := list TaskUpdate.t * outcome string.

(** A streaming executor: the inherited part and the method
    [process_message_streaming], which a subclass may override. *)
Record t : Type := mk {
  base : AgentExecutor.BaseAgentExecutor;
  process_message_streaming : string -> RequestContext.t -> streaming_run
}.

(** The method as the class defines it: it awaits [process_message] and
    puts nothing. *)
Definition default_streaming (b : AgentExecutor.BaseAgentExecutor)
  : string -> RequestContext.t -> streaming_run :=
  fun text context => ([], AgentExecutor.process_message b text context).

(** A [StreamingAgentExecutor] subclass that overrides
    [process_message] only. *)
Definition of_base (b : AgentExecutor.BaseAgentExecutor) : t :=
  {| base := b; process_message_streaming := default_streaming b |}.

(** [await self.process_message_streaming(message, context, event_queue)] *)
Definition call_process_message_streaming (self : t) (text : string)
           (context : RequestContext.t) : Exec string :=
  fun tr =>
    let (updates, result) := process_message_streaming self text context in
    (result, tr ++ Process text context :: map Put updates).

(** [execute]: no status update at the start, and the handler reports
    [str(e)] as it is. *)
Definition execute (self : t) (context : RequestContext.t) : Exec unit :=
  let task_id := RequestContext.task_id context in
  try_except
    (match AgentExecutor._extract_user_message context with
     | Some user_message =>
         if negb (Py.truthy_str user_message)
         then AgentExecutor._send_error task_id "No valid message content found"
         else
           response <- call_process_message_streaming self user_message context ;;
           AgentExecutor._send_response task_id response
     | None => AgentExecutor._send_error task_id "No valid message content found"
     end)
    (fun e => AgentExecutor._send_error task_id (exn_str e)).

End StreamingAgentExecutor.

(* ================================================================== *)
(** * Scenarios *)
(* ================================================================== *)

(** ** Memory: five user and three assistant messages, interleaved *)

Definition user_msg (text : string) : Message :=
  {| role := USER; parts := [TextPart text] |}.

Definition assistant_msg (text : string) : Message :=
  {| role := ASSISTANT; parts := [TextPart text] |}.

Definition interleaved_history : list Message :=
  [ user_msg "u1"; assistant_msg "a1"; user_msg "u2"; user_msg "u3";
    assistant_msg "a2"; user_msg "u4"; assistant_msg "a3"; user_msg "u5" ].

Definition interleaved_memory : AgentMemory.t :=
  AgentMemory.add_messages interleaved_history (AgentMemory.init 100).

(** ** Tools: one coroutine function and one plain function

    The world of these tools is a log of the bodies that have run. *)

Definition tool_log : Type := list string.

Definition fetch_body (kw : Tools.kwargs tool_log) (w : tool_log)
  : outcome (Tools.pyobj tool_log) * tool_log :=
  (Return (Tools.PStr "document"), w ++ ["fetch ran"]).

(** The signature [fetch(url=...)]: the only keyword accepted is
    [url]. *)
Fixpoint fetch_bind_error (kw : Tools.kwargs tool_log) : option string :=
  match kw with
  | [] => None
  | (k, _) :: rest =>
      if String.eqb k "url" then fetch_bind_error rest
      else Some ("fetch() got an unexpected keyword argument '" ++ k ++ "'")%string
  end.

Definition add_body (kw : Tools.kwargs tool_log) (w : tool_log)
  : outcome (Tools.pyobj tool_log) * tool_log :=
  (Return (Tools.PInt 3), w ++ ["add ran"]).

(** A registry holding the tool ["fetch"], declared with [async def]. *)
Definition async_registry : Tools.ToolRegistry tool_log :=
  Tools.register "fetch" "Fetch a document" (Tools.AsyncFn fetch_bind_error fetch_body)
                 None None Tools.new_registry.

(** A registry holding the tool ["add"], declared with [def]. *)
Definition sync_registry : Tools.ToolRegistry tool_log :=
  Tools.register "add" "Add two numbers" (Tools.SyncFn add_body)
                 (Some [("type", JStr "object")]) (Some ["math"])
                 Tools.new_registry.

(** ** Executor: the agents and requests of the scenarios *)

(** An agent that answers ["hello back"] to everything. *)
Definition hello_agent : AgentExecutor.BaseAgentExecutor :=
  {| AgentExecutor.name := "hello";
     AgentExecutor.process_message := fun _ _ => Return "hello back" |}.

(** Task ["t1"]: a user message with the single text part ["hi"]. *)
Definition t1_context : RequestContext.t :=
  {| RequestContext.task_id := "t1";
     RequestContext.message :=
       Some {| role := USER; parts := [TextPart "hi"] |} |}.

(** A request whose message has a file part and no text part. *)
Definition file_only_context : RequestContext.t :=
  {| RequestContext.task_id := "t2";
     RequestContext.message :=
       Some {| role := USER; parts := [FilePart "file:///photo.png"] |} |}.

(** A request whose first text part is empty and whose second is not. *)
Definition empty_first_text_context : RequestContext.t :=
  {| RequestContext.task_id := "t3";
     RequestContext.message :=
       Some {| role := USER;
               parts := [DataPart "{}"; TextPart ""; TextPart "what is new?"] |} |}.

(** The specification's events for task ["t1"]. *)
Definition t1_events_spec : list LifecycleEvent :=
  [ Submitted;
    Progress "processing...";
    Completed (Some {| role := ASSISTANT; parts := [TextPart "hello back"] |}) ].

(** Whether a request's message has a text-bearing part. *)
Definition has_text_part (context : RequestContext.t) : bool :=
  match RequestContext.message context with
  | None => false
  | Some m => existsb is_TextPart (parts m)
  end.

(** ** Further scenarios *)

(** A memory of capacity 2 that is full. *)
Definition full_memory : AgentMemory.t :=
  AgentMemory.add_messages [user_msg "u1"; assistant_msg "a1"]
                           (AgentMemory.init 2).

(** A memory of capacity 10 holding one user message. *)
Definition greeted_memory : AgentMemory.t :=
  AgentMemory.add_message (user_msg "hi there") (AgentMemory.init 10).

(** A memory object with one message and one metadata entry. *)
Definition tagged_object : AgentMemoryObject.t :=
  AgentMemoryObject.set_metadata "topic" (JStr "billing")
    (AgentMemoryObject.add_message (user_msg "hi there")
                                   (AgentMemoryObject.init 10)).

(** A Redis server seen as the log of the commands it received, and a
    client whose [keys] command fails. *)
Definition redis_log : Type := list string.

Definition unreachable_redis : RedisBackedMemory.RedisClient redis_log :=
  {| RedisBackedMemory.keys := fun pattern w =>
       (Raise (mkExn "ConnectionError" "connection refused" true),
        w ++ ["KEYS"]);
     RedisBackedMemory.delete := fun ks w => (Return 0, w ++ ["DEL"]) |}.

Definition redis_memory : RedisBackedMemory.t redis_log :=
  RedisBackedMemory.add_message (user_msg "hi there")
    (RedisBackedMemory.init unreachable_redis "s1" 10 3600).

(** An agent whose processing capability always fails. *)
Definition failing_agent : AgentExecutor.BaseAgentExecutor :=
  {| AgentExecutor.name := "failing";
     AgentExecutor.process_message :=
       fun _ _ => Raise (mkExn "RuntimeError" "model unavailable" true) |}.

(** An agent whose processing capability is cancelled while it runs. *)
Definition cancelled_agent : AgentExecutor.BaseAgentExecutor :=
  {| AgentExecutor.name := "cancelled";
     AgentExecutor.process_message := fun _ _ => Raise CancelledError |}.

(** A streaming agent that reports two steps and then answers. *)
Definition stepwise_agent : StreamingAgentExecutor.t :=
  {| StreamingAgentExecutor.base := hello_agent;
     StreamingAgentExecutor.process_message_streaming := fun text context =>
       ([ AgentExecutor.in_progress_update
            (RequestContext.task_id context) "retrieving";
          AgentExecutor.in_progress_update
            (RequestContext.task_id context) "writing" ],
        Return "hello back") |}.

(* ================================================================== *)
(** * Properties of [memory.py] *)
(* ================================================================== *)

Section SliceFacts.

Context {A : Type}.
Implicit Types (l h : list A) (k : nat).

Lemma slice_from_zero l : Py.slice_from 0 l = l.
Proof.
  unfold Py.slice_from. cbn. rewrite Z.min_l by lia. reflexivity.
Qed.

(** For a positive [c], [l[-c:]] is the last [c] elements of [l]. *)
Lemma slice_from_neg_lastn (c : Z) l :
  0 < c -> Py.slice_from (- c) l = Py.lastn (Z.to_nat c) l.
Proof.
  intros Hc. unfold Py.slice_from, Py.lastn.
  destruct (Z.ltb_spec (- c) 0) as [_ | Hge]; [| lia].
  f_equal. lia.
Qed.

(** For a negative [c], [l[-c:]] drops the first [|c|] elements. *)
Lemma slice_from_pos_skipn (c : Z) l :
  c < 0 -> Py.slice_from (- c) l = skipn (Z.to_nat (- c)) l.
Proof.
  intros Hc. unfold Py.slice_from.
  destruct (Z.ltb_spec (- c) 0) as [Hlt | _]; [lia |].
  destruct (Z.le_gt_cases (- c) (Z.of_nat (length l))) as [Hle | Hgt].
  - rewrite Z.min_l by lia. reflexivity.
  - rewrite Z.min_r by lia.
    rewrite !skipn_all2 by lia. reflexivity.
Qed.

Lemma lastn_length k l : length (Py.lastn k l) = Nat.min k (length l).
Proof. unfold Py.lastn. rewrite length_skipn. lia. Qed.

Lemma lastn_all k l : (length l <= k)%nat -> Py.lastn k l = l.
Proof.
  intros H. unfold Py.lastn.
  replace (length l - k)%nat with 0%nat by lia. reflexivity.
Qed.

(** The last [k] elements are a suffix: order and adjacency are kept. *)
Lemma lastn_suffix k l : exists dropped, l = dropped ++ Py.lastn k l.
Proof.
  exists (firstn (length l - k) l). unfold Py.lastn.
  symmetry. apply firstn_skipn.
Qed.

(** Trimming, appending, and trimming again is trimming once. *)
Lemma lastn_app_lastn k h (x : A) :
  (1 <= k)%nat ->
  Py.lastn k (Py.lastn k h ++ [x]) = Py.lastn k (h ++ [x]).
Proof.
  intros Hk.
  destruct (Nat.le_gt_cases (length h) k) as [Hle | Hgt].
  - rewrite (lastn_all k h) by exact Hle. reflexivity.
  - unfold Py.lastn at 1 3.
    rewrite !length_app, lastn_length. cbn [length].
    rewrite !skipn_app. unfold Py.lastn.
    rewrite skipn_skipn, length_skipn.
    replace (Nat.min k (length h) + 1 - k + (length h - k))%nat
      with (length h + 1 - k)%nat by lia.
    replace (Nat.min k (length h) + 1 - k - (length h - (length h - k)))%nat
      with 0%nat by lia.
    replace (length h + 1 - k - length h)%nat with 0%nat by lia.
    reflexivity.
Qed.

End SliceFacts.

Section MemoryFacts.

Import AgentMemory.

Lemma add_message_max m s : max_messages (add_message m s) = max_messages s.
Proof. reflexivity. Qed.

Lemma add_messages_max ms : forall s,
  max_messages (add_messages ms s) = max_messages s.
Proof.
  induction ms as [| m ms IH]; intros s; cbn; [reflexivity |].
  unfold add_messages in IH. rewrite IH. apply add_message_max.
Qed.

(** With a positive capacity, one [add_message] keeps the most recent
    [max_messages] of the history extended by the new message. *)
Lemma add_message_lastn m s :
  1 <= max_messages s ->
  messages (add_message m s)
  = Py.lastn (Z.to_nat (max_messages s)) (messages s ++ [m]).
Proof.
  intros Hc. unfold add_message. cbn [messages].
  destruct (Z.gtb_spec (Z.of_nat (length (messages s ++ [m])))
                       (max_messages s)) as [Hgt | Hle].
  - apply slice_from_neg_lastn. lia.
  - symmetry. apply lastn_all. lia.
Qed.

Lemma add_messages_lastn ms : forall s h,
  1 <= max_messages s ->
  messages s = Py.lastn (Z.to_nat (max_messages s)) h ->
  messages (add_messages ms s)
  = Py.lastn (Z.to_nat (max_messages s)) (h ++ ms).
Proof.
  induction ms as [| m ms IH]; intros s h Hc Hs; cbn.
  - rewrite app_nil_r. exact Hs.
  - unfold add_messages in IH.
    rewrite (IH (add_message m s) (h ++ [m])).
    + rewrite add_message_max, <- app_assoc. reflexivity.
    + rewrite add_message_max. exact Hc.
    + rewrite add_message_max, add_message_lastn by exact Hc.
      rewrite Hs. apply lastn_app_lastn. lia.
Qed.

(** FIFO eviction for a positive capacity [C]: after any sequence of
    appends to a fresh memory, the history is the [C] most recent
    messages in their order, so its length is at most [C], and exactly
    [C] once more than [C] messages were appended. *)
Lemma add_messages_fifo (C : Z) (ms : list Message) :
  1 <= C ->
  let stored := messages (add_messages ms (init C)) in
  stored = Py.lastn (Z.to_nat C) ms
  /\ Z.of_nat (length stored) <= C
  /\ (C < Z.of_nat (length ms) -> Z.of_nat (length stored) = C).
Proof.
  intros HC stored.
  assert (Hst : stored = Py.lastn (Z.to_nat C) ms).
  { subst stored.
    rewrite (add_messages_lastn ms (init C) []); cbn; try lia; reflexivity. }
  rewrite Hst, lastn_length. repeat split; lia.
Qed.

Lemma add_messages_zero ms : forall s,
  max_messages s = 0 ->
  messages (add_messages ms s) = messages s ++ ms.
Proof.
  induction ms as [| m ms IH]; intros s H0; cbn.
  - symmetry. apply app_nil_r.
  - unfold add_messages in IH. rewrite IH by (rewrite add_message_max; exact H0).
    unfold add_message. cbn [messages]. rewrite H0. cbn [Z.opp].
    rewrite slice_from_zero.
    destruct (_ >? 0); rewrite <- app_assoc; reflexivity.
Qed.

End MemoryFacts.

Example interleaved_memory_messages :
  AgentMemory.messages interleaved_memory = interleaved_history.
Proof. reflexivity. Qed.

Example query_last_two_assistant :
  AgentMemory.get_messages (Some 2) (Some ASSISTANT) interleaved_memory
  = [assistant_msg "a2"; assistant_msg "a3"].
Proof. reflexivity. Qed.

(** C6 (the code at capacity 0): a memory created with [max_messages = 0]
    never trims. The slice [messages[-0:]] is the whole list, so after
    appending [m] and then [ms] to a fresh memory the stored history is
    every appended message, and its length exceeds the capacity. *)
Theorem add_messages_capacity_zero_keeps_everything
        (m : Message) (ms : list Message) :
  let memory := AgentMemory.add_messages (m :: ms) (AgentMemory.init 0) in
  AgentMemory.messages memory = m :: ms
  /\ AgentMemory.max_messages memory
     < Z.of_nat (length (AgentMemory.messages memory)).
Proof.
  cbn zeta. rewrite add_messages_zero by reflexivity.
  rewrite add_messages_max. cbn. split; [reflexivity | lia].
Qed.

(** At [last_n = 0] the answer differs from the specification's reading
    of [query] on the interleaved history: all three assistant messages
    come back, not the zero most recent ones. *)
Lemma get_messages_last_n_zero_not_truncated :
  AgentMemory.get_messages (Some 0) (Some ASSISTANT) interleaved_memory
  <> AgentMemory.query_spec 0 ASSISTANT
       (AgentMemory.messages interleaved_memory).
Proof. vm_compute. discriminate. Qed.

(** C9 (the code at [last_n = 0]): the guard [if last_n:] is false for
    [0], so [get_messages] does not truncate: with [last_n = 0] it
    returns every message of the role, where the zero most recent
    messages are none at all; on the interleaved history of five user
    and three assistant messages it returns the three assistant
    messages. *)
Theorem get_messages_last_n_zero_returns_all
        (memory : AgentMemory.t) (r : MessageRole) :
  AgentMemory.get_messages (Some 0) (Some r) memory
  = filter (fun m => MessageRole_eqb (role m) r) (AgentMemory.messages memory)
  /\ AgentMemory.query_spec 0 r (AgentMemory.messages memory) = []
  /\ AgentMemory.get_messages (Some 0) (Some ASSISTANT) interleaved_memory
     = [assistant_msg "a1"; assistant_msg "a2"; assistant_msg "a3"].
Proof.
  split; [reflexivity |]. split; [| reflexivity].
  unfold AgentMemory.query_spec, Py.lastn. cbn [Z.to_nat].
  rewrite Nat.sub_0_r. apply skipn_all.
Qed.

(** For every history and every [n >= 1] the claim C9 holds:
    [get_messages] with [last_n = n] and a role filter returns the [n]
    most recent messages of that role, in their original order: it
    filters first and truncates afterwards. The result is a suffix of the
    filtered history, and the whole of it when it has at most [n]
    messages. *)
Theorem get_messages_filters_then_truncates
        (memory : AgentMemory.t) (n : Z) (r : MessageRole) :
  1 <= n ->
  let filtered :=
    filter (fun m => MessageRole_eqb (role m) r) (AgentMemory.messages memory) in
  let answer := AgentMemory.get_messages (Some n) (Some r) memory in
  answer = AgentMemory.query_spec n r (AgentMemory.messages memory)
  /\ (exists older, filtered = older ++ answer)
  /\ length answer = Nat.min (Z.to_nat n) (length filtered)
  /\ (Z.of_nat (length filtered) <= n -> answer = filtered).
Proof.
  intros Hn filtered answer.
  assert (Ha : answer = Py.lastn (Z.to_nat n) filtered).
  { subst answer filtered. unfold AgentMemory.get_messages, Py.truthy_int.
    destruct (Z.eqb_spec n 0) as [-> | _]; [lia |]. cbn [negb].
    apply slice_from_neg_lastn. lia. }
  rewrite Ha. repeat split.
  - apply lastn_suffix.
  - apply lastn_length.
  - intros Hshort. apply lastn_all. lia.
Qed.

Lemma get_messages_filters_then_truncates_witness :
  1 <= 2
  /\ AgentMemory.get_messages (Some 2) (Some ASSISTANT) interleaved_memory
     = AgentMemory.query_spec 2 ASSISTANT
         (AgentMemory.messages interleaved_memory).
Proof.
  split; [lia |].
  apply (get_messages_filters_then_truncates interleaved_memory 2 ASSISTANT).
  lia.
Defined.

(* ================================================================== *)
(** * Properties of [tools.py] *)
(* ================================================================== *)

Section DictFacts.

Context {V : Type}.
Implicit Types (d : PyDict.t V) (k : string) (v : V).

Lemma dict_get_set_eq k v d : PyDict.get k (PyDict.set k v d) = Some v.
Proof.
  induction d as [| [k' v'] d IH]; cbn.
  - rewrite String.eqb_refl. reflexivity.
  - destruct (String.eqb k k') eqn:E; cbn; rewrite E; [reflexivity | exact IH].
Qed.

Lemma dict_get_set_ne k k' v d :
  k <> k' -> PyDict.get k' (PyDict.set k v d) = PyDict.get k' d.
Proof.
  intros Hne. induction d as [| [k0 v0] d IH]; cbn.
  - destruct (String.eqb_spec k' k); [congruence | reflexivity].
  - destruct (String.eqb_spec k k0) as [-> | Hk]; cbn.
    + destruct (String.eqb_spec k' k0); [congruence | reflexivity].
    + rewrite IH. reflexivity.
Qed.

Lemma dict_keys_set k v d :
  forall k', In k' (PyDict.keys (PyDict.set k v d))
             <-> k' = k \/ In k' (PyDict.keys d).
Proof.
  intros k'. induction d as [| [k0 v0] d IH]; cbn.
  - intuition congruence.
  - destruct (String.eqb_spec k k0) as [-> | Hk]; cbn.
    + intuition congruence.
    + unfold PyDict.keys in IH. rewrite IH. intuition congruence.
Qed.

Lemma dict_keys_del k d :
  forall k', In k' (PyDict.keys (PyDict.del k d)) -> In k' (PyDict.keys d).
Proof.
  intros k'. induction d as [| [k0 v0] d IH]; cbn; [tauto |].
  destruct (String.eqb k k0); cbn; intuition.
Qed.

Lemma dict_set_NoDup k v d :
  NoDup (PyDict.keys d) -> NoDup (PyDict.keys (PyDict.set k v d)).
Proof.
  induction d as [| [k0 v0] d IH]; cbn; intros Hnd.
  - constructor; [intros [] | constructor].
  - inversion Hnd as [| ? ? Hnotin Hrest]; subst.
    destruct (String.eqb_spec k k0) as [-> | Hk]; cbn.
    + constructor; assumption.
    + constructor; [| apply IH; exact Hrest].
      intros Hin. apply (dict_keys_set k v d k0) in Hin.
      destruct Hin as [-> | Hin]; [congruence | contradiction].
Qed.

Lemma dict_del_NoDup k d :
  NoDup (PyDict.keys d) -> NoDup (PyDict.keys (PyDict.del k d)).
Proof.
  induction d as [| [k0 v0] d IH]; cbn; intros Hnd; [constructor |].
  inversion Hnd as [| ? ? Hnotin Hrest]; subst.
  destruct (String.eqb k k0); [exact Hrest |]. cbn.
  constructor; [| apply IH; exact Hrest].
  intros Hin. apply Hnotin. eapply dict_keys_del. exact Hin.
Qed.

Lemma dict_set_Forall (P : string * V -> Prop) k v d :
  P (k, v) -> Forall P d -> Forall P (PyDict.set k v d).
Proof.
  intros Hkv. induction d as [| [k0 v0] d IH]; cbn; intros Hall.
  - constructor; [exact Hkv | constructor].
  - inversion Hall as [| ? ? H0 Hrest]; subst.
    destruct (String.eqb_spec k k0) as [-> | Hk].
    + constructor; assumption.
    + constructor; [exact H0 | apply IH; exact Hrest].
Qed.

Lemma dict_del_Forall (P : string * V -> Prop) k d :
  Forall P d -> Forall P (PyDict.del k d).
Proof.
  induction d as [| [k0 v0] d IH]; cbn; intros Hall; [constructor |].
  inversion Hall as [| ? ? H0 Hrest]; subst.
  destruct (String.eqb k k0); [exact Hrest |].
  constructor; [exact H0 | apply IH; exact Hrest].
Qed.

End DictFacts.

Section ToolFacts.

Context {W : Type}.
Implicit Types (r : Tools.ToolRegistry W) (tool : Tools.ToolDefinition W).

(** The accumulating loop of [get_tool_schemas] is a [map]. *)
Lemma schemas_loop (tools : list (Tools.ToolDefinition W)) : forall acc,
  fold_left (fun schemas tool => schemas ++ [Tools.tool_schema tool]) tools acc
  = acc ++ map Tools.tool_schema tools.
Proof.
  induction tools as [| tool tools IH]; intros acc; cbn.
  - symmetry. apply app_nil_r.
  - rewrite IH, <- app_assoc. reflexivity.
Qed.

Lemma get_tool_schemas_map r :
  Tools.get_tool_schemas r = map Tools.tool_schema (PyDict.values r).
Proof. unfold Tools.get_tool_schemas. apply schemas_loop. Qed.

(** In a registry built with [register] and [unregister], the keys are
    distinct and every definition is filed under its own name. *)
Lemma reachable_well_formed r :
  Tools.reachable r ->
  NoDup (PyDict.keys r)
  /\ Forall (fun entry => Tools.name (snd entry) = fst entry) r.
Proof.
  induction 1 as [| n d f p t r _ [IHnd IHall] | n r _ [IHnd IHall]].
  - split; constructor.
  - unfold Tools.register. split.
    + apply dict_set_NoDup. exact IHnd.
    + apply dict_set_Forall; [reflexivity | exact IHall].
  - unfold Tools.unregister.
    destruct (PyDict.contains n r); cbn [fst]; [| split; assumption].
    split; [apply dict_del_NoDup | apply dict_del_Forall]; assumption.
Qed.

(** The tool names of a reachable registry are pairwise distinct. *)
Lemma reachable_names_NoDup r :
  Tools.reachable r -> NoDup (map Tools.name (PyDict.values r)).
Proof.
  intros Hr. destruct (reachable_well_formed r Hr) as [Hnd Hall].
  replace (map Tools.name (PyDict.values r)) with (PyDict.keys r); [exact Hnd |].
  unfold PyDict.keys, PyDict.values. rewrite map_map.
  apply map_ext_in. intros entry Hin.
  rewrite Forall_forall in Hall. symmetry. apply Hall. exact Hin.
Qed.

(** After [register], the name resolves to the new definition. *)
Lemma get_tool_register n d f p t r :
  Tools.get_tool n (Tools.register n d f p t r)
  = Some (Tools.mkTool n d (Tools.or_empty p) f (Tools.or_empty t)).
Proof. unfold Tools.get_tool, Tools.register. apply dict_get_set_eq. Qed.

End ToolFacts.

(** C4 (as stated, refuted): [execute_tool] on the coroutine function
    ["fetch"] does not raise anything. *)
Lemma execute_tool_async_callable_not_rejected :
  raised (fst (Tools.execute_tool "fetch" [] async_registry [])) <> true.
Proof. vm_compute. discriminate. Qed.

(** C4 (amended): for every registered tool whose callable is a coroutine
    function, [execute_tool] never runs the tool body and has no refusal
    of its own. The call binds the arguments: when they match the
    signature, nothing is raised and the coroutine object made by the
    call is returned, unexecuted; when they do not, the [TypeError] of
    the call leaves [execute_tool]. The world is the one before the call
    in both cases. *)
Theorem execute_tool_returns_unawaited_coroutine
        {W : Type} (r : Tools.ToolRegistry W) (n : string)
        (tool : Tools.ToolDefinition W)
        (bind_error : Tools.kwargs W -> option string)
        (body : Tools.kwargs W -> W -> outcome (Tools.pyobj W) * W)
        (kw : Tools.kwargs W) (w : W) :
  Tools.get_tool n r = Some tool ->
  Tools.function tool = Tools.AsyncFn bind_error body ->
  Tools.execute_tool n kw r w
  = match bind_error kw with
    | None => (Return (Tools.PCoroutine (body kw)), w)
    | Some msg => (Raise (TypeError msg), w)
    end
  /\ snd (Tools.execute_tool n kw r w) = w.
Proof.
  intros Hget Hfun. unfold Tools.execute_tool.
  rewrite Hget, Hfun. cbn [Tools.call].
  destruct (bind_error kw); split; reflexivity.
Qed.

Lemma execute_tool_returns_unawaited_coroutine_witness :
  Tools.get_tool "fetch" async_registry
  = Some (Tools.mkTool "fetch" "Fetch a document" []
                       (Tools.AsyncFn fetch_bind_error fetch_body) [])
  /\ Tools.execute_tool "fetch" [] async_registry []
     = (Return (Tools.PCoroutine (fetch_body [])), [])
  /\ Tools.execute_tool "fetch" [("bogus", Tools.PInt 1)] async_registry []
     = (Raise (TypeError "fetch() got an unexpected keyword argument 'bogus'"),
        []).
Proof.
  split; [reflexivity |].
  split;
    apply (execute_tool_returns_unawaited_coroutine
             async_registry "fetch"
             (Tools.mkTool "fetch" "Fetch a document" []
                           (Tools.AsyncFn fetch_bind_error fetch_body) [])
             fetch_bind_error fetch_body); reflexivity.
Defined.

(** C5 (as stated, refuted): [execute_tool_async] on the plain function
    ["add"], which returns [3], does not return what the function
    returned: it raises. *)
Lemma execute_tool_async_sync_callable_fails :
  fst (Tools.execute_tool_async "add" [] sync_registry [])
  <> fst (add_body [] []).
Proof. vm_compute. discriminate. Qed.

(** C5 (amended): for every registered tool whose callable is a plain
    function, [execute_tool] runs it and yields exactly what it yields, a
    result or its exception unchanged. [execute_tool_async] runs it as
    well and then applies [await] to the value returned: when that value
    is not awaitable it raises a [TypeError] after the body has run, and
    when the function returned a coroutine object it yields what that
    coroutine yields. *)
Theorem sync_tool_through_both_entry_points
        {W : Type} (r : Tools.ToolRegistry W) (n : string)
        (tool : Tools.ToolDefinition W)
        (body : Tools.kwargs W -> W -> outcome (Tools.pyobj W) * W)
        (kw : Tools.kwargs W) (w : W) :
  Tools.get_tool n r = Some tool ->
  Tools.function tool = Tools.SyncFn body ->
  Tools.execute_tool n kw r w = body kw w
  /\ Tools.execute_tool_async n kw r w
     = match body kw w with
       | (Return v, w') => Tools.await v w'
       | (Raise e, w') => (Raise e, w')
       end
  /\ (forall v w',
        body kw w = (Return v, w') ->
        Tools.awaitable v = false ->
        Tools.execute_tool_async n kw r w
        = (Raise (TypeError ("object " ++ Tools.type_name v
                             ++ " can't be used in 'await' expression")%string),
           w'))
  /\ (forall resume w',
        body kw w = (Return (Tools.PCoroutine resume), w') ->
        Tools.execute_tool_async n kw r w = resume w').
Proof.
  intros Hget Hfun. unfold Tools.execute_tool, Tools.execute_tool_async.
  rewrite Hget, Hfun. cbn [Tools.call]. repeat split.
  - intros v w' Hbody Hplain. rewrite Hbody.
    destruct v; cbn in Hplain |- *; [reflexivity .. | discriminate].
  - intros resume w' Hbody. rewrite Hbody. reflexivity.
Qed.

Lemma sync_tool_through_both_entry_points_witness :
  Tools.get_tool "add" sync_registry
  = Some (Tools.mkTool "add" "Add two numbers" [("type", JStr "object")]
                       (Tools.SyncFn add_body) ["math"])
  /\ Tools.execute_tool "add" [] sync_registry [] = add_body [] []
  /\ Tools.execute_tool_async "add" [] sync_registry []
     = (Raise (TypeError "object int can't be used in 'await' expression"),
        ["add ran"]).
Proof.
  pose proof (sync_tool_through_both_entry_points
                sync_registry "add"
                (Tools.mkTool "add" "Add two numbers" [("type", JStr "object")]
                              (Tools.SyncFn add_body) ["math"])
                add_body [] [] eq_refl eq_refl) as [Hsync [_ [Hasync _]]].
  split; [reflexivity |]. split; [exact Hsync |].
  exact (Hasync (Tools.PInt 3) ["add ran"] eq_refl eq_refl).
Defined.

(** C7 (as stated, refuted): the schema exported for the tool ["add"] is
    not the descriptor [{name, description, parameters}]. *)
Lemma get_tool_schemas_not_neutral :
  Tools.get_tool_schemas sync_registry <> Tools.export_schemas_spec sync_registry.
Proof. vm_compute. discriminate. Qed.

(** C7 (amended): for every registry, [get_tool_schemas] returns one
    schema per registered tool, in registration order, and each schema
    has the OpenAI function-calling shape: [type] is ["function"] and
    [function] holds the tool's name, description and parameter schema. *)
Theorem get_tool_schemas_openai_shape
        {W : Type} (r : Tools.ToolRegistry W) :
  Tools.get_tool_schemas r
  = map (fun tool => JDict [ ("type", JStr "function");
                             ("function", Tools.neutral_descriptor tool) ])
        (PyDict.values r)
  /\ length (Tools.get_tool_schemas r) = PyDict.len r.
Proof.
  rewrite get_tool_schemas_map. split; [reflexivity |].
  unfold PyDict.values, PyDict.len. rewrite !length_map. reflexivity.
Qed.

(* ================================================================== *)
(** * Properties of [agent_executor.py] *)
(* ================================================================== *)

Section ExecutorFacts.

Import AgentExecutor.

Variable self : BaseAgentExecutor.
Variable context : RequestContext.t.

Let task_id := RequestContext.task_id context.

Lemma queue_of_app tr1 tr2 : queue_of (tr1 ++ tr2) = queue_of tr1 ++ queue_of tr2.
Proof.
  induction tr1 as [| [u | text c] tr1 IH]; cbn; [reflexivity | | exact IH].
  rewrite IH. reflexivity.
Qed.

Lemma process_calls_app tr1 tr2 :
  process_calls (tr1 ++ tr2) = process_calls tr1 ++ process_calls tr2.
Proof.
  induction tr1 as [| [u | text c] tr1 IH]; cbn; [reflexivity | exact IH |].
  rewrite IH. reflexivity.
Qed.

(** A message without a [TextPart] yields no text. *)
Lemma first_text_none ps : existsb is_TextPart ps = false -> first_text ps = None.
Proof.
  induction ps as [| [text | uri | data] ps IH]; cbn; intros H;
    [reflexivity | discriminate | exact (IH H) | exact (IH H)].
Qed.

(** The loop stops at the first [TextPart], whatever follows it. *)
Lemma first_text_first pre text post :
  existsb is_TextPart pre = false ->
  first_text (pre ++ TextPart text :: post) = Some text.
Proof.
  induction pre as [| [t | uri | data] pre IH]; cbn; intros H;
    [reflexivity | discriminate | exact (IH H) | exact (IH H)].
Qed.

Lemma extract_no_text_part :
  has_text_part context = false -> _extract_user_message context = None.
Proof.
  unfold has_text_part, _extract_user_message.
  destruct (RequestContext.message context) as [m |]; [| reflexivity].
  intros H. destruct (parts m) as [| p ps] eqn:E; [reflexivity |].
  apply first_text_none. exact H.
Qed.

(** The three runs of [execute], from any trace [tr]. *)

Lemma execute_no_content tr :
  _extract_user_message context = None
  \/ _extract_user_message context = Some "" ->
  execute self context tr
  = (Return tt,
     tr ++ [ Put (in_progress_update task_id "Processing request...");
             Put (failed_update task_id "No valid message content found") ]).
Proof.
  intros H. unfold execute, try_except, bind, _send_status_update, _send_error, put.
  destruct H as [-> | ->]; cbn; rewrite <- app_assoc; reflexivity.
Qed.

Lemma execute_returns tr text response :
  _extract_user_message context = Some text ->
  text <> "" ->
  process_message self text context = Return response ->
  execute self context tr
  = (Return tt,
     tr ++ [ Put (in_progress_update task_id "Processing request...");
             Process text context;
             Put (completed_update task_id response) ]).
Proof.
  intros Hx Hne Hp.
  unfold execute, try_except, bind, _send_status_update, _send_response,
    call_process_message, put.
  rewrite Hx. destruct text as [| c text]; [congruence |]. cbn.
  rewrite Hp. rewrite <- !app_assoc. reflexivity.
Qed.

Lemma execute_raises tr text e :
  _extract_user_message context = Some text ->
  text <> "" ->
  process_message self text context = Raise e ->
  is_Exception e = true ->
  execute self context tr
  = (Return tt,
     tr ++ [ Put (in_progress_update task_id "Processing request...");
             Process text context;
             Put (failed_update task_id ("Execution error: " ++ exn_str e)) ]).
Proof.
  intros Hx Hne Hp He.
  unfold execute, try_except, bind, _send_status_update, _send_error,
    call_process_message, put.
  rewrite Hx. destruct text as [| c text]; [congruence |]. cbn.
  rewrite Hp, He. rewrite <- !app_assoc. reflexivity.
Qed.

(** An exception outside [Exception] passes the handler: [execute]
    raises it, and no update follows the call of the capability. *)
Lemma execute_propagates tr text e :
  _extract_user_message context = Some text ->
  text <> "" ->
  process_message self text context = Raise e ->
  is_Exception e = false ->
  execute self context tr
  = (Raise e,
     tr ++ [ Put (in_progress_update task_id "Processing request...");
             Process text context ]).
Proof.
  intros Hx Hne Hp He.
  unfold execute, try_except, bind, _send_status_update, _send_error,
    call_process_message, put.
  rewrite Hx. destruct text as [| c text]; [congruence |]. cbn.
  rewrite Hp, He. rewrite <- !app_assoc. reflexivity.
Qed.


(** [cancel] is a single unconditional [put]. *)
Lemma cancel_run tr :
  cancel self context tr = (Return tt, tr ++ [Put (canceled_update task_id)]).
Proof. reflexivity. Qed.

End ExecutorFacts.



(** C2 (as stated, refuted): after [execute] has put the [Completed]
    event of task ["t1"] on the queue, [cancel] changes the queue. *)
Lemma cancel_after_completed_not_noop :
  let finished := snd (AgentExecutor.execute hello_agent t1_context []) in
  queue_of (snd (AgentExecutor.cancel hello_agent t1_context finished))
  <> queue_of finished.
Proof. vm_compute. discriminate. Qed.

(** C2 (amended): whatever the event stream already contains, [cancel]
    returns normally and appends exactly one [Canceled] event to it; the
    events already there, a terminal one included, stay as they are. *)
Theorem cancel_appends_canceled
        (self : AgentExecutor.BaseAgentExecutor) (context : RequestContext.t)
        (tr : list effect) :
  let after := snd (AgentExecutor.cancel self context tr) in
  fst (AgentExecutor.cancel self context tr) = Return tt
  /\ queue_of after
     = queue_of tr
       ++ [AgentExecutor.canceled_update (RequestContext.task_id context)]
  /\ map event_of (queue_of after) = map event_of (queue_of tr) ++ [Canceled]
  /\ process_calls after = process_calls tr.
Proof.
  cbn zeta. rewrite cancel_run. cbn [fst snd].
  rewrite queue_of_app, process_calls_app, map_app. cbn.
  rewrite app_nil_r. repeat split.
Qed.

(** C3 (as stated, refuted): the events of task ["t1"] are not
    [Submitted, Progress("processing..."), Completed(...)]. *)
Lemma t1_events_differ_from_spec :
  events (AgentExecutor.execute hello_agent t1_context) <> t1_events_spec.
Proof. vm_compute. discriminate. Qed.

(** C3 (amended): for every request whose first text part is not empty,
    [execute] emits [Progress("Processing request...")] and only then
    calls the processing capability, once, on that text; no [Submitted]
    event is emitted. When the capability returns [response], the events
    are exactly [Progress("Processing request...")] and [Completed] with
    an assistant message whose single text part is [response]. *)
Theorem execute_progress_before_processing
        (self : AgentExecutor.BaseAgentExecutor) (context : RequestContext.t)
        (text : string) :
  AgentExecutor._extract_user_message context = Some text ->
  text <> "" ->
  (exists rest,
      snd (AgentExecutor.execute self context [])
      = Put (AgentExecutor.in_progress_update
               (RequestContext.task_id context) "Processing request...")
        :: Process text context :: rest
      /\ process_calls rest = [])
  /\ ~ In Submitted (events (AgentExecutor.execute self context))
  /\ (forall response,
        AgentExecutor.process_message self text context = Return response ->
        events (AgentExecutor.execute self context)
        = [ Progress "Processing request...";
            Completed (Some {| role := ASSISTANT;
                               parts := [TextPart response] |}) ]).
Proof.
  intros Hx Hne.
  destruct (AgentExecutor.process_message self text context) as [r | e] eqn:Hp.
  - unfold events.
    rewrite (execute_returns self context [] text r Hx Hne Hp). cbn.
    split; [eexists; split; reflexivity |].
    split; [intros [H | [H | []]]; discriminate |].
    intros response Hr. injection Hr as <-. reflexivity.
  - destruct (is_Exception e) eqn:He; unfold events.
    + rewrite (execute_raises self context [] text e Hx Hne Hp He). cbn.
      split; [eexists; split; reflexivity |].
      split; [intros [H | [H | []]]; discriminate |].
      intros response Hr. discriminate.
    + rewrite (execute_propagates self context [] text e Hx Hne Hp He). cbn.
      split; [eexists; split; reflexivity |].
      split; [intros [H | []]; discriminate |].
      intros response Hr. discriminate.
Qed.

Lemma execute_progress_before_processing_witness :
  AgentExecutor._extract_user_message t1_context = Some "hi"
  /\ "hi" <> ""
  /\ events (AgentExecutor.execute hello_agent t1_context)
     = [ Progress "Processing request...";
         Completed (Some {| role := ASSISTANT;
                            parts := [TextPart "hello back"] |}) ].
Proof.
  assert (Hne : "hi" <> "") by discriminate.
  split; [reflexivity |]. split; [exact Hne |].
  destruct (execute_progress_before_processing
              hello_agent t1_context "hi" eq_refl Hne) as [_ [_ Hdone]].
  apply Hdone. reflexivity.
Defined.

(** C8 (as stated, refuted): the [Failed] event emitted for a request
    without a text part does not carry the reason
    ["no valid message content"]. *)
Lemma failed_reason_differs_from_spec :
  ~ In (Failed "no valid message content")
       (events (AgentExecutor.execute hello_agent file_only_context)).
Proof. vm_compute. intros [H | [H | []]]; discriminate. Qed.

(** C8 (amended): for every request whose message has no text-bearing
    part, [execute] returns normally, raising nothing, never calls the
    processing capability, and emits [Progress("Processing request...")]
    followed by [Failed("No valid message content found")]. *)
Theorem execute_without_text_part_fails
        (self : AgentExecutor.BaseAgentExecutor) (context : RequestContext.t) :
  has_text_part context = false ->
  fst (AgentExecutor.execute self context []) = Return tt
  /\ process_calls (snd (AgentExecutor.execute self context [])) = []
  /\ events (AgentExecutor.execute self context)
     = [ Progress "Processing request...";
         Failed "No valid message content found" ].
Proof.
  intros Hno. unfold events.
  rewrite execute_no_content by (left; apply extract_no_text_part; exact Hno).
  cbn. repeat split.
Qed.

Lemma execute_without_text_part_fails_witness :
  has_text_part file_only_context = false
  /\ fst (AgentExecutor.execute hello_agent file_only_context []) = Return tt
  /\ process_calls (snd (AgentExecutor.execute hello_agent file_only_context [])) = []
  /\ events (AgentExecutor.execute hello_agent file_only_context)
     = [ Progress "Processing request...";
         Failed "No valid message content found" ].
Proof.
  split; [reflexivity |].
  apply (execute_without_text_part_fails hello_agent file_only_context).
  reflexivity.
Defined.

(** C10: for every request whose first [TextPart] carries the empty
    text, [execute] emits a [Failed] event with the message
    ["No valid message content found"] and never calls the processing
    capability, whatever parts follow, a later non-empty text included:
    extraction stops at the first [TextPart], and the empty text counts
    as missing content. *)
Theorem execute_empty_first_text_fails
        (self : AgentExecutor.BaseAgentExecutor) (id : string)
        (r : MessageRole) (pre post : list MessagePart) :
  existsb is_TextPart pre = false ->
  let context :=
    {| RequestContext.task_id := id;
       RequestContext.message :=
         Some {| role := r; parts := pre ++ TextPart "" :: post |} |} in
  AgentExecutor._extract_user_message context = Some ""
  /\ fst (AgentExecutor.execute self context []) = Return tt
  /\ process_calls (snd (AgentExecutor.execute self context [])) = []
  /\ events (AgentExecutor.execute self context)
     = [ Progress "Processing request...";
         Failed "No valid message content found" ].
Proof.
  intros Hpre context.
  assert (Hx : AgentExecutor._extract_user_message context = Some "").
  { unfold AgentExecutor._extract_user_message. cbn.
    rewrite <- (first_text_first pre "" post Hpre).
    destruct (pre ++ TextPart "" :: post) eqn:E; [| reflexivity].
    destruct pre; discriminate. }
  split; [exact Hx |]. unfold events.
  rewrite execute_no_content by (right; exact Hx).
  cbn. repeat split.
Qed.

Lemma execute_empty_first_text_fails_witness :
  existsb is_TextPart [DataPart "{}"] = false
  /\ process_calls
       (snd (AgentExecutor.execute hello_agent empty_first_text_context [])) = []
  /\ events (AgentExecutor.execute hello_agent empty_first_text_context)
     = [ Progress "Processing request...";
         Failed "No valid message content found" ].
Proof.
  split; [reflexivity |].
  destruct (execute_empty_first_text_fails
              hello_agent "t3" USER [DataPart "{}"] [TextPart "what is new?"]
              eq_refl) as [_ [_ [Hcalls Hevents]]].
  split; [exact Hcalls | exact Hevents].
Defined.

(* ================================================================== *)
(** * Further properties of [memory.py] *)
(* ================================================================== *)

Section MoreSliceFacts.

Context {A : Type}.
Implicit Types (l : list A).

(** A slice [l[i:]] is a suffix of [l], for every integer [i]. *)
Lemma slice_from_suffix (i : Z) l : exists dropped, l = dropped ++ Py.slice_from i l.
Proof.
  unfold Py.slice_from.
  match goal with |- context [skipn ?k l] => exists (firstn k l) end.
  symmetry. apply firstn_skipn.
Qed.

Lemma Forall_suffix (P : A -> Prop) l1 l2 : Forall P (l1 ++ l2) -> Forall P l2.
Proof. intros H. apply Forall_app in H. apply H. Qed.

End MoreSliceFacts.

Section MoreMemoryFacts.

Import AgentMemory.

Lemma add_messages_app ms1 ms2 s :
  add_messages (ms1 ++ ms2) s = add_messages ms2 (add_messages ms1 s).
Proof. unfold add_messages. apply fold_left_app. Qed.

Lemma add_message_negative m s :
  max_messages s < 0 -> messages s = [] -> messages (add_message m s) = [].
Proof.
  intros Hneg Hemp. unfold add_message. cbn [messages]. rewrite Hemp. cbn [app length].
  destruct (Z.gtb_spec (Z.of_nat 1) (max_messages s)) as [_ | Hle]; [| lia].
  replace (- max_messages s) with (- (max_messages s)) by reflexivity.
  rewrite slice_from_pos_skipn by exact Hneg.
  apply skipn_all2. cbn. lia.
Qed.

Lemma count_roles_le (ms : list Message) :
  AgentMemoryObject.count_role USER ms + AgentMemoryObject.count_role ASSISTANT ms
  <= Z.of_nat (length ms).
Proof.
  unfold AgentMemoryObject.count_role.
  induction ms as [| m ms IH]; cbn [filter length]; [lia |].
  destruct (role m); cbn [MessageRole_eqb length]; lia.
Qed.

End MoreMemoryFacts.

(** X1: with a capacity of at least 1, appending one or more messages to
    a memory in any state leaves exactly the most recent [max_messages]
    messages of the old history followed by the new ones, in order; the
    bound holds afterwards even if the old history was longer than the
    capacity, and the capacity itself does not change. *)
Theorem add_messages_keeps_most_recent
        (s : AgentMemory.t) (m : Message) (ms : list Message) :
  1 <= AgentMemory.max_messages s ->
  let after := AgentMemory.add_messages (m :: ms) s in
  AgentMemory.messages after
  = Py.lastn (Z.to_nat (AgentMemory.max_messages s))
             (AgentMemory.messages s ++ m :: ms)
  /\ Z.of_nat (length (AgentMemory.messages after)) <= AgentMemory.max_messages s
  /\ AgentMemory.max_messages after = AgentMemory.max_messages s.
Proof.
  intros Hc after.
  assert (Hst : AgentMemory.messages after
                = Py.lastn (Z.to_nat (AgentMemory.max_messages s))
                           (AgentMemory.messages s ++ m :: ms)).
  { subst after. cbn [AgentMemory.add_messages fold_left].
    change (fold_left _ ms ?x) with (AgentMemory.add_messages ms x).
    rewrite (add_messages_lastn ms (AgentMemory.add_message m s)
                                (AgentMemory.messages s ++ [m])).
    - rewrite add_message_max, <- app_assoc. reflexivity.
    - rewrite add_message_max. exact Hc.
    - rewrite add_message_max. apply add_message_lastn. exact Hc. }
  split; [exact Hst |]. split.
  - rewrite Hst, lastn_length. lia.
  - subst after. apply add_messages_max.
Qed.

Lemma add_messages_keeps_most_recent_witness :
  1 <= AgentMemory.max_messages full_memory
  /\ AgentMemory.messages
       (AgentMemory.add_messages [user_msg "u2"; assistant_msg "a2"; user_msg "u3"]
                                 full_memory)
     = Py.lastn (Z.to_nat (AgentMemory.max_messages full_memory))
         (AgentMemory.messages full_memory
          ++ [user_msg "u2"; assistant_msg "a2"; user_msg "u3"]).
Proof.
  split; [vm_compute; discriminate |].
  apply (add_messages_keeps_most_recent
           full_memory (user_msg "u2") [assistant_msg "a2"; user_msg "u3"]).
  vm_compute. discriminate.
Defined.

(** X2: a memory created with a negative capacity stores nothing: after
    any sequence of appends its history is empty. *)
Theorem negative_capacity_stores_nothing (C : Z) (ms : list Message) :
  C < 0 ->
  AgentMemory.messages (AgentMemory.add_messages ms (AgentMemory.init C)) = [].
Proof.
  intros HC.
  assert (H : forall s, AgentMemory.max_messages s = C ->
                        AgentMemory.messages s = [] ->
                        AgentMemory.messages (AgentMemory.add_messages ms s) = []).
  { induction ms as [| m ms IH]; intros s Hmax Hemp; cbn; [exact Hemp |].
    apply IH.
    - rewrite add_message_max. exact Hmax.
    - apply add_message_negative; [lia | exact Hemp]. }
  apply H; reflexivity.
Qed.

Lemma negative_capacity_stores_nothing_witness :
  -1 < 0
  /\ AgentMemory.messages
       (AgentMemory.add_messages interleaved_history (AgentMemory.init (-1))) = [].
Proof.
  split; [lia |].
  apply (negative_capacity_stores_nothing (-1) interleaved_history). lia.
Defined.

(** X3: whatever [last_n] is (absent, zero, positive or negative),
    [get_messages] with a role filter returns a suffix of the history
    restricted to that role: every message returned has the role, none
    is reordered, and no message of that role lies between two returned
    ones. *)
Theorem get_messages_suffix_of_filtered
        (s : AgentMemory.t) (last_n : option Z) (r : MessageRole) :
  let filtered :=
    filter (fun m => MessageRole_eqb (role m) r) (AgentMemory.messages s) in
  let answer := AgentMemory.get_messages last_n (Some r) s in
  (exists older, filtered = older ++ answer)
  /\ Forall (fun m => role m = r) answer.
Proof.
  intros filtered answer.
  assert (Hsuf : exists older, filtered = older ++ answer).
  { subst answer filtered. unfold AgentMemory.get_messages.
    destruct last_n as [n |]; [| exists []; reflexivity].
    destruct (Py.truthy_int n); [apply slice_from_suffix | exists []; reflexivity]. }
  split; [exact Hsuf |].
  destruct Hsuf as [older Hol].
  apply (Forall_suffix _ older). rewrite <- Hol. subst filtered.
  apply Forall_forall. intros m Hin. apply filter_In in Hin.
  destruct Hin as [_ Hr]. destruct (role m), r; (reflexivity || discriminate).
Qed.

(** X4: a negative [last_n] does not select recent messages: the slice
    [messages[-last_n:]] then drops the [|last_n|] oldest messages and
    returns all the others. *)
Theorem get_messages_negative_last_n (s : AgentMemory.t) (n : Z) :
  n < 0 ->
  AgentMemory.get_messages (Some n) None s
  = skipn (Z.to_nat (- n)) (AgentMemory.messages s).
Proof.
  intros Hn. unfold AgentMemory.get_messages, Py.truthy_int.
  destruct (Z.eqb_spec n 0) as [-> | _]; [lia |]. cbn [negb].
  apply slice_from_pos_skipn. exact Hn.
Qed.

Lemma get_messages_negative_last_n_witness :
  -3 < 0
  /\ AgentMemory.get_messages (Some (-3)) None interleaved_memory
     = skipn (Z.to_nat (- -3)) (AgentMemory.messages interleaved_memory).
Proof.
  split; [lia |].
  apply (get_messages_negative_last_n interleaved_memory (-3)). lia.
Defined.

Section MoreDictFacts.

Context {V : Type}.
Implicit Types (d : PyDict.t V) (k : string) (v : V).

(** Writing a key twice is writing it once with the last value. *)
Lemma dict_set_set k v1 v2 d :
  PyDict.set k v2 (PyDict.set k v1 d) = PyDict.set k v2 d.
Proof.
  induction d as [| [k0 v0] d IH]; cbn.
  - rewrite String.eqb_refl. reflexivity.
  - destruct (String.eqb k k0) eqn:E; cbn; rewrite E; [reflexivity |].
    rewrite IH. reflexivity.
Qed.

Lemma dict_keys_set_cases k v d :
  PyDict.keys (PyDict.set k v d)
  = if PyDict.contains k d then PyDict.keys d else PyDict.keys d ++ [k].
Proof.
  unfold PyDict.contains.
  induction d as [| [k0 v0] d IH]; cbn; [reflexivity |].
  destruct (String.eqb k k0) eqn:E; cbn; [reflexivity |].
  unfold PyDict.keys in IH. rewrite IH.
  destruct (PyDict.get k d); reflexivity.
Qed.

Lemma dict_get_none k d : ~ In k (PyDict.keys d) -> PyDict.get k d = None.
Proof.
  induction d as [| [k0 v0] d IH]; cbn; intros Hnot; [reflexivity |].
  destruct (String.eqb_spec k k0) as [-> | Hne]; [tauto |].
  apply IH. tauto.
Qed.

Lemma dict_get_in k v d : PyDict.get k d = Some v -> In (k, v) d.
Proof.
  induction d as [| [k0 v0] d IH]; cbn; [discriminate |].
  destruct (String.eqb_spec k k0) as [-> | Hne].
  - intros [= ->]. left. reflexivity.
  - intros H. right. exact (IH H).
Qed.

Lemma dict_get_del_eq k d :
  NoDup (PyDict.keys d) -> PyDict.get k (PyDict.del k d) = None.
Proof.
  induction d as [| [k0 v0] d IH]; cbn; intros Hnd; [reflexivity |].
  inversion Hnd as [| ? ? Hnotin Hrest]; subst.
  destruct (String.eqb_spec k k0) as [-> | Hne]; cbn.
  - apply dict_get_none. exact Hnotin.
  - destruct (String.eqb_spec k k0); [congruence |]. apply IH. exact Hrest.
Qed.

Lemma dict_get_del_ne k k' d :
  k <> k' -> PyDict.get k' (PyDict.del k d) = PyDict.get k' d.
Proof.
  intros Hne. induction d as [| [k0 v0] d IH]; cbn; [reflexivity |].
  destruct (String.eqb_spec k k0) as [-> | Hk]; cbn.
  - destruct (String.eqb_spec k' k0); [congruence | reflexivity].
  - rewrite IH. reflexivity.
Qed.

Lemma dict_len_set k v d :
  PyDict.len (PyDict.set k v d)
  = if PyDict.contains k d then PyDict.len d else S (PyDict.len d).
Proof.
  unfold PyDict.contains, PyDict.len.
  induction d as [| [k0 v0] d IH]; cbn; [reflexivity |].
  destruct (String.eqb k k0) eqn:E; cbn; [reflexivity |].
  rewrite IH. destruct (PyDict.get k d); reflexivity.
Qed.

Lemma dict_len_del k d :
  PyDict.contains k d = true -> S (PyDict.len (PyDict.del k d)) = PyDict.len d.
Proof.
  unfold PyDict.contains, PyDict.len.
  induction d as [| [k0 v0] d IH]; cbn; [discriminate |].
  destruct (String.eqb k k0) eqn:E; cbn; [reflexivity |].
  intros H. rewrite IH by exact H. reflexivity.
Qed.

End MoreDictFacts.

(** Appending to a memory object appends to its store and keeps the
    metadata. *)
Lemma object_add_messages (ms : list Message) : forall o,
  fold_left (fun o m => AgentMemoryObject.add_message m o) ms o
  = {| AgentMemoryObject.store :=
         AgentMemory.add_messages ms (AgentMemoryObject.store o);
       AgentMemoryObject.metadata := AgentMemoryObject.metadata o |}.
Proof.
  induction ms as [| m ms IH]; intros o; cbn [fold_left].
  - destruct o. reflexivity.
  - rewrite IH. reflexivity.
Qed.

(** X5: [clear] forgets the history and nothing else. With a capacity
    [C >= 1], what is stored after [clear] and any further appends is the
    [C] most recent of those appends alone, whatever the memory held
    before; the metadata and the capacity are the ones from before
    [clear], and right after [clear] the rendered history is empty. *)
Theorem clear_then_append
        (o : AgentMemoryObject.t) (ms : list Message) :
  1 <= AgentMemory.max_messages (AgentMemoryObject.store o) ->
  let after :=
    fold_left (fun o m => AgentMemoryObject.add_message m o) ms
              (AgentMemoryObject.clear o) in
  AgentMemoryObject.get_messages None None after
  = Py.lastn (Z.to_nat (AgentMemory.max_messages (AgentMemoryObject.store o))) ms
  /\ AgentMemoryObject.metadata after = AgentMemoryObject.metadata o
  /\ AgentMemoryObject.max_messages (AgentMemoryObject.get_stats after)
     = AgentMemory.max_messages (AgentMemoryObject.store o)
  /\ AgentMemoryObject.get_conversation_history (AgentMemoryObject.clear o) = "".
Proof.
  intros HC after. subst after. rewrite object_add_messages.
  unfold AgentMemoryObject.get_messages, AgentMemoryObject.get_stats,
    AgentMemoryObject.clear.
  cbn [AgentMemoryObject.store AgentMemoryObject.metadata
       AgentMemoryObject.max_messages].
  destruct (add_messages_fifo _ ms HC) as [Hst _].
  change (AgentMemory.clear (AgentMemoryObject.store o))
    with (AgentMemory.init (AgentMemory.max_messages (AgentMemoryObject.store o))).
  unfold AgentMemory.get_messages. rewrite Hst, add_messages_max.
  repeat split.
Qed.

Lemma clear_then_append_witness :
  1 <= AgentMemory.max_messages (AgentMemoryObject.store tagged_object)
  /\ AgentMemoryObject.get_messages None None
       (fold_left (fun o m => AgentMemoryObject.add_message m o)
                  interleaved_history (AgentMemoryObject.clear tagged_object))
     = Py.lastn
         (Z.to_nat (AgentMemory.max_messages (AgentMemoryObject.store tagged_object)))
         interleaved_history.
Proof.
  assert (HC : 1 <= AgentMemory.max_messages (AgentMemoryObject.store tagged_object))
    by (vm_compute; discriminate).
  split; [exact HC |].
  destruct (clear_then_append tagged_object interleaved_history HC) as [Hst _].
  exact Hst.
Defined.

(** X6: a metadata value that was set is the one read back, whatever
    default the reader supplies, and setting metadata leaves the history
    alone. *)
Theorem get_metadata_after_set
        (o : AgentMemoryObject.t) (key : string) (value default : json) :
  AgentMemoryObject.get_metadata key default
    (AgentMemoryObject.set_metadata key value o) = value
  /\ AgentMemoryObject.store (AgentMemoryObject.set_metadata key value o)
     = AgentMemoryObject.store o.
Proof.
  unfold AgentMemoryObject.get_metadata, AgentMemoryObject.set_metadata.
  cbn. rewrite dict_get_set_eq. split; reflexivity.
Qed.

(** X7: setting one metadata key does not change what is read under any
    other key. *)
Theorem get_metadata_other_key
        (o : AgentMemoryObject.t) (key other : string) (value default : json) :
  key <> other ->
  AgentMemoryObject.get_metadata other default
    (AgentMemoryObject.set_metadata key value o)
  = AgentMemoryObject.get_metadata other default o.
Proof.
  intros Hne. unfold AgentMemoryObject.get_metadata, AgentMemoryObject.set_metadata.
  cbn. rewrite dict_get_set_ne by exact Hne. reflexivity.
Qed.

Lemma get_metadata_other_key_witness :
  "locale" <> "topic"
  /\ AgentMemoryObject.get_metadata "topic" JNull
       (AgentMemoryObject.set_metadata "locale" (JStr "en") tagged_object)
     = AgentMemoryObject.get_metadata "topic" JNull tagged_object.
Proof.
  assert (Hne : "locale" <> "topic") by discriminate.
  split; [exact Hne |].
  apply (get_metadata_other_key tagged_object "locale" "topic" (JStr "en") JNull).
  exact Hne.
Defined.

(** X8: metadata is last-write-wins with unique keys: setting a key
    twice gives the same object as setting it once with the second value,
    and the key list reported by [get_stats] grows by that key at its end
    only when the key was not there before. *)
Theorem set_metadata_last_write_wins
        (o : AgentMemoryObject.t) (key : string) (v1 v2 : json) :
  AgentMemoryObject.set_metadata key v2 (AgentMemoryObject.set_metadata key v1 o)
  = AgentMemoryObject.set_metadata key v2 o
  /\ AgentMemoryObject.metadata_keys
       (AgentMemoryObject.get_stats (AgentMemoryObject.set_metadata key v1 o))
     = if PyDict.contains key (AgentMemoryObject.metadata o)
       then AgentMemoryObject.metadata_keys (AgentMemoryObject.get_stats o)
       else AgentMemoryObject.metadata_keys (AgentMemoryObject.get_stats o)
            ++ [key].
Proof.
  unfold AgentMemoryObject.set_metadata, AgentMemoryObject.get_stats.
  cbn [AgentMemoryObject.metadata AgentMemoryObject.store
       AgentMemoryObject.metadata_keys].
  rewrite dict_set_set, dict_keys_set_cases. split; reflexivity.
Qed.

(** X9: reading a metadata key that is not among the keys of the object
    returns the caller's default. *)
Theorem get_metadata_missing_key
        (o : AgentMemoryObject.t) (key : string) (default : json) :
  ~ In key (AgentMemoryObject.metadata_keys (AgentMemoryObject.get_stats o)) ->
  AgentMemoryObject.get_metadata key default o = default.
Proof.
  intros Hnot. unfold AgentMemoryObject.get_metadata.
  rewrite dict_get_none by exact Hnot. reflexivity.
Qed.

Lemma get_metadata_missing_key_witness :
  ~ In "locale"
       (AgentMemoryObject.metadata_keys (AgentMemoryObject.get_stats tagged_object))
  /\ AgentMemoryObject.get_metadata "locale" (JStr "en") tagged_object = JStr "en".
Proof.
  assert (Hnot : ~ In "locale"
                      (AgentMemoryObject.metadata_keys
                         (AgentMemoryObject.get_stats tagged_object))).
  { cbn. intros [H | []]. discriminate. }
  split; [exact Hnot |].
  apply (get_metadata_missing_key tagged_object "locale" (JStr "en")). exact Hnot.
Defined.

(** X10: in the statistics of any memory the user and assistant counts
    are non-negative and together never exceed the total, and the total
    is the number of messages [get_messages] returns without arguments. *)
Theorem get_stats_counts_consistent (o : AgentMemoryObject.t) :
  let st := AgentMemoryObject.get_stats o in
  0 <= AgentMemoryObject.user_messages st
  /\ 0 <= AgentMemoryObject.assistant_messages st
  /\ AgentMemoryObject.user_messages st + AgentMemoryObject.assistant_messages st
     <= AgentMemoryObject.total_messages st
  /\ AgentMemoryObject.total_messages st
     = Z.of_nat (length (AgentMemoryObject.get_messages None None o))
  /\ AgentMemoryObject.user_messages st
     = Z.of_nat (length (AgentMemoryObject.get_messages None (Some USER) o)).
Proof.
  cbn. unfold AgentMemoryObject.count_role.
  pose proof (count_roles_le (AgentMemory.messages (AgentMemoryObject.store o))) as H.
  unfold AgentMemoryObject.count_role in H.
  repeat split; try lia.
Qed.

(** X11: after appending any messages to a fresh memory of capacity
    [C >= 1], the total reported by [get_stats] is the number of appends
    capped at [C]. *)
Theorem get_stats_total_capped (C : Z) (ms : list Message) :
  1 <= C ->
  let o := fold_left (fun o m => AgentMemoryObject.add_message m o) ms
                     (AgentMemoryObject.init C) in
  AgentMemoryObject.total_messages (AgentMemoryObject.get_stats o)
  = Z.min C (Z.of_nat (length ms))
  /\ AgentMemoryObject.max_messages (AgentMemoryObject.get_stats o) = C.
Proof.
  intros HC o.
  assert (Hstore : AgentMemoryObject.store o
                   = AgentMemory.add_messages ms (AgentMemory.init C)).
  { subst o. unfold AgentMemoryObject.init.
    generalize (AgentMemory.init C) (@PyDict.empty json).
    induction ms as [| m ms IH]; intros s md; cbn; [reflexivity |].
    unfold AgentMemoryObject.add_message at 2. cbn. apply IH. }
  unfold AgentMemoryObject.get_stats. cbn. rewrite Hstore.
  destruct (add_messages_fifo C ms HC) as [Hst _].
  rewrite Hst, lastn_length, add_messages_max. cbn. split; lia.
Qed.

Lemma get_stats_total_capped_witness :
  1 <= 3
  /\ AgentMemoryObject.total_messages
       (AgentMemoryObject.get_stats
          (fold_left (fun o m => AgentMemoryObject.add_message m o)
                     interleaved_history (AgentMemoryObject.init 3)))
     = Z.min 3 (Z.of_nat (length interleaved_history)).
Proof.
  split; [lia |].
  apply (get_stats_total_capped 3 interleaved_history). lia.
Defined.

Section HistoryFacts.

Import AgentMemory.

Lemma string_append_assoc (a b c : string) :
  ((a ++ b) ++ c = a ++ (b ++ c))%string.
Proof. induction a as [| ch a IH]; cbn; [reflexivity | rewrite IH; reflexivity]. Qed.

(** Joining a non-empty list extended by one more string. *)
Lemma concat_snoc (sep : string) (l : list string) (x : string) :
  l <> [] ->
  String.concat sep (l ++ [x]) = (String.concat sep l ++ sep ++ x)%string.
Proof.
  induction l as [| a l IH]; [congruence |]. intros _.
  destruct l as [| b l]; [reflexivity |].
  change (String.concat sep ((a :: b :: l) ++ [x]))
    with (a ++ sep ++ String.concat sep ((b :: l) ++ [x]))%string.
  rewrite IH by discriminate.
  change (String.concat sep (a :: b :: l))
    with (a ++ sep ++ String.concat sep (b :: l))%string.
  rewrite !string_append_assoc. reflexivity.
Qed.

Lemma history_parts_app (ms1 ms2 : list Message) :
  history_parts (ms1 ++ ms2) = history_parts ms1 ++ history_parts ms2.
Proof.
  induction ms1 as [| m ms1 IH]; cbn; [reflexivity |].
  destruct (text_parts (parts m)); rewrite IH; reflexivity.
Qed.

Lemma text_parts_nil (ps : list MessagePart) :
  text_parts ps = [] <-> existsb is_TextPart ps = false.
Proof.
  induction ps as [| [text | uri | data] ps IH]; cbn; try exact IH.
  - tauto.
  - split; discriminate.
Qed.

End HistoryFacts.

(** X12: [get_conversation_history] renders exactly the messages that
    have a text part, in order, and skips the others: the result is the
    lines [role: texts joined by a space] of those messages, one per
    message, joined by blank lines. *)
Theorem history_skips_messages_without_text (s : AgentMemory.t) :
  AgentMemory.get_conversation_history s
  = String.concat AgentMemory.blank_line
      (map (fun m =>
              (AgentMemory.role_value (role m) ++ ": "
               ++ String.concat " " (AgentMemory.text_parts (parts m)))%string)
           (filter (fun m => existsb is_TextPart (parts m))
                   (AgentMemory.messages s))).
Proof.
  unfold AgentMemory.get_conversation_history. f_equal.
  induction (AgentMemory.messages s) as [| m ms IH]; [reflexivity |].
  cbn [filter AgentMemory.history_parts].
  destruct (AgentMemory.text_parts (parts m)) as [| t ts] eqn:E.
  - apply text_parts_nil in E. rewrite E. exact IH.
  - destruct (existsb is_TextPart (parts m)) eqn:Ex.
    + cbn [map]. rewrite E, IH. reflexivity.
    + apply text_parts_nil in Ex. congruence.
Qed.

(** X13: appending a message that has at least one text part to a memory
    that is not full adds one line [role: texts joined by spaces] at the
    end of the rendered history, after a blank line when something was
    rendered before; the text itself may be empty. *)
Theorem history_after_add_message
        (s : AgentMemory.t) (r : MessageRole) (ps : list MessagePart)
        (text : string) (texts : list string) :
  Z.of_nat (length (AgentMemory.messages s)) < AgentMemory.max_messages s ->
  AgentMemory.text_parts ps = text :: texts ->
  let line :=
    (AgentMemory.role_value r ++ ": " ++ String.concat " " (text :: texts))%string in
  AgentMemory.get_conversation_history
    (AgentMemory.add_message {| role := r; parts := ps |} s)
  = match AgentMemory.history_parts (AgentMemory.messages s) with
    | [] => line
    | _ :: _ =>
        (AgentMemory.get_conversation_history s
         ++ AgentMemory.blank_line ++ line)%string
    end.
Proof.
  intros Hroom Htexts line.
  unfold AgentMemory.get_conversation_history, AgentMemory.add_message.
  cbn [AgentMemory.messages].
  destruct (Z.gtb_spec (Z.of_nat (length (AgentMemory.messages s
                                          ++ [{| role := r; parts := ps |}])))
                       (AgentMemory.max_messages s)) as [Hgt | _].
  { rewrite length_app in Hgt. cbn in Hgt. lia. }
  rewrite history_parts_app. cbn [AgentMemory.history_parts parts role].
  rewrite Htexts. fold line.
  destruct (AgentMemory.history_parts (AgentMemory.messages s)) as [| l ls] eqn:E.
  - reflexivity.
  - apply concat_snoc. discriminate.
Qed.

Lemma history_after_add_message_witness :
  Z.of_nat (length (AgentMemory.messages greeted_memory))
  < AgentMemory.max_messages greeted_memory
  /\ AgentMemory.text_parts [FilePart "file:///a.png"; TextPart "hello"; TextPart "again"]
     = ["hello"; "again"]
  /\ AgentMemory.get_conversation_history
       (AgentMemory.add_message
          {| role := ASSISTANT;
             parts := [FilePart "file:///a.png"; TextPart "hello"; TextPart "again"] |}
          greeted_memory)
     = ("user: hi there" ++ AgentMemory.blank_line ++ "assistant: hello again")%string.
Proof.
  assert (Hroom : Z.of_nat (length (AgentMemory.messages greeted_memory))
                  < AgentMemory.max_messages greeted_memory)
    by (vm_compute; reflexivity).
  split; [exact Hroom |]. split; [reflexivity |].
  exact (history_after_add_message
           greeted_memory ASSISTANT
           [FilePart "file:///a.png"; TextPart "hello"; TextPart "again"]
           "hello" ["again"] Hroom eq_refl).
Defined.

(** X14: [RedisBackedMemory.clear] always clears the in-memory history,
    whatever the Redis client does, a failure included; the capacity,
    the metadata and the connection settings stay as they were. *)
Theorem redis_clear_always_clears_memory
        {R : Type} (self : RedisBackedMemory.t R) (w : R) :
  let after := fst (RedisBackedMemory.clear self w) in
  AgentMemoryObject.get_messages None None (RedisBackedMemory.memory after) = []
  /\ AgentMemoryObject.metadata (RedisBackedMemory.memory after)
     = AgentMemoryObject.metadata (RedisBackedMemory.memory self)
  /\ AgentMemory.max_messages (AgentMemoryObject.store (RedisBackedMemory.memory after))
     = AgentMemory.max_messages (AgentMemoryObject.store (RedisBackedMemory.memory self))
  /\ RedisBackedMemory.key_prefix after = RedisBackedMemory.key_prefix self.
Proof.
  unfold RedisBackedMemory.clear.
  destruct (RedisBackedMemory.keys _ _ w) as [[[| k ks] | e] w1];
    cbn; repeat split.
Qed.

(** X15: when the key lookup of [RedisBackedMemory.clear] fails or finds
    no key, nothing is deleted: the Redis server is left as the lookup
    left it. The pattern looked up is [agent_memory:<session_id>:*] for a
    memory made by the constructor. *)
Theorem redis_clear_deletes_only_found_keys
        {R : Type} (client : RedisBackedMemory.RedisClient R)
        (session : string) (max_messages ttl : Z) (ms : list Message)
        (w w1 : R) (found : outcome (list string)) :
  let self :=
    fold_left (fun self m => RedisBackedMemory.add_message m self) ms
              (RedisBackedMemory.init client session max_messages ttl) in
  RedisBackedMemory.keys client ("agent_memory:" ++ session ++ ":*")%string w
  = (found, w1) ->
  found = Return [] \/ raised found = true ->
  snd (RedisBackedMemory.clear self w) = w1.
Proof.
  intros self Hkeys Hnone.
  assert (Hself : RedisBackedMemory.redis_client self = client
                  /\ RedisBackedMemory.key_prefix self
                     = ("agent_memory:" ++ session)%string).
  { subst self. unfold RedisBackedMemory.init, RedisBackedMemory._load_from_redis.
    match goal with |- context [fold_left _ ms ?x] =>
      assert (Hx : RedisBackedMemory.redis_client x = client
                   /\ RedisBackedMemory.key_prefix x
                      = ("agent_memory:" ++ session)%string)
        by (split; reflexivity);
      generalize dependent x end.
    induction ms as [| m ms IH]; intros x Hx; cbn [fold_left]; [exact Hx |].
    apply IH. exact Hx. }
  destruct Hself as [Hc Hp].
  unfold RedisBackedMemory.clear. rewrite Hc, Hp.
  rewrite string_append_assoc, Hkeys.
  destruct Hnone as [-> | Hr]; [reflexivity |].
  destruct found; [discriminate | reflexivity].
Qed.

Lemma redis_clear_deletes_only_found_keys_witness :
  RedisBackedMemory.keys unreachable_redis ("agent_memory:" ++ "s1" ++ ":*")%string []
  = (Raise (mkExn "ConnectionError" "connection refused" true), ["KEYS"])
  /\ snd (RedisBackedMemory.clear redis_memory []) = ["KEYS"].
Proof.
  split; [reflexivity |].
  apply (redis_clear_deletes_only_found_keys
           unreachable_redis "s1" 10 3600 [user_msg "hi there"] [] ["KEYS"]
           (Raise (mkExn "ConnectionError" "connection refused" true)) eq_refl).
  right. reflexivity.
Defined.

(* ================================================================== *)
(** * Further properties of [tools.py] *)
(* ================================================================== *)

(** X16: registering a name a second time replaces the definition: the
    registry is the one obtained by registering the second definition
    alone, the name resolves to the second definition, and the number of
    tools is the same as after the first registration. *)
Theorem register_twice_keeps_second
        {W : Type} (r : Tools.ToolRegistry W) (n d1 d2 : string)
        (f1 f2 : Tools.callable W) (p1 p2 : option (PyDict.t json))
        (t1 t2 : option (list string)) :
  let once := Tools.register n d1 f1 p1 t1 r in
  let twice := Tools.register n d2 f2 p2 t2 once in
  twice = Tools.register n d2 f2 p2 t2 r
  /\ Tools.get_tool n twice
     = Some (Tools.mkTool n d2 (Tools.or_empty p2) f2 (Tools.or_empty t2))
  /\ Tools.len twice = Tools.len once.
Proof.
  cbn zeta. unfold Tools.register, Tools.get_tool, Tools.len.
  rewrite dict_set_set, dict_get_set_eq. split; [reflexivity |].
  split; [reflexivity |].
  rewrite !dict_len_set. unfold PyDict.contains.
  destruct (PyDict.get n r); reflexivity.
Qed.

(** X17: registering a tool changes nothing for any other name: lookup
    and membership of the other name are as before. *)
Theorem register_keeps_other_tools
        {W : Type} (r : Tools.ToolRegistry W) (n other d : string)
        (f : Tools.callable W) (p : option (PyDict.t json))
        (t : option (list string)) :
  n <> other ->
  Tools.get_tool other (Tools.register n d f p t r) = Tools.get_tool other r
  /\ Tools.contains other (Tools.register n d f p t r) = Tools.contains other r.
Proof.
  intros Hne. unfold Tools.get_tool, Tools.contains, PyDict.contains, Tools.register.
  rewrite dict_get_set_ne by exact Hne. split; reflexivity.
Qed.

Lemma register_keeps_other_tools_witness :
  "fetch" <> "add"
  /\ Tools.get_tool "add"
       (Tools.register "fetch" "Fetch a document" (Tools.AsyncFn fetch_bind_error fetch_body)
                       None None sync_registry)
     = Tools.get_tool "add" sync_registry.
Proof.
  assert (Hne : "fetch" <> "add") by discriminate.
  split; [exact Hne |].
  apply (register_keeps_other_tools
           sync_registry "fetch" "add" "Fetch a document"
           (Tools.AsyncFn fetch_bind_error fetch_body) None None Hne).
Defined.

(** X18: after [register] the name is in the registry, and the number of
    tools has grown by one exactly when the name was not registered
    before. *)
Theorem register_len_and_contains
        {W : Type} (r : Tools.ToolRegistry W) (n d : string)
        (f : Tools.callable W) (p : option (PyDict.t json))
        (t : option (list string)) :
  Tools.contains n (Tools.register n d f p t r) = true
  /\ Tools.len (Tools.register n d f p t r)
     = if Tools.contains n r then Tools.len r else Tools.len r + 1.
Proof.
  unfold Tools.contains, PyDict.contains, Tools.register, Tools.len.
  rewrite dict_get_set_eq, dict_len_set. unfold PyDict.contains.
  split; [reflexivity |]. destruct (PyDict.get n r); lia.
Qed.

(** X19: in a registry built with [register] and [unregister],
    [unregister] reports whether the name was registered, and afterwards
    the name is gone: lookup and membership fail, and the number of tools
    has dropped by one exactly when the name was there. *)
Theorem unregister_removes_tool
        {W : Type} (r : Tools.ToolRegistry W) (n : string) :
  Tools.reachable r ->
  let after := fst (Tools.unregister n r) in
  snd (Tools.unregister n r) = Tools.contains n r
  /\ Tools.get_tool n after = None
  /\ Tools.contains n after = false
  /\ Tools.len after = if Tools.contains n r then Tools.len r - 1 else Tools.len r.
Proof.
  intros Hr. destruct (reachable_well_formed r Hr) as [Hnd _].
  unfold Tools.unregister, Tools.contains, Tools.get_tool, Tools.len. cbn zeta.
  destruct (PyDict.contains n r) eqn:Hc; cbn [fst snd].
  - pose proof (dict_len_del n r Hc) as Hlen.
    unfold PyDict.contains at 1. rewrite dict_get_del_eq by exact Hnd.
    repeat split. lia.
  - unfold PyDict.contains in Hc |- *.
    destruct (PyDict.get n r); [discriminate |]. repeat split.
Qed.

Lemma unregister_removes_tool_witness :
  Tools.reachable sync_registry
  /\ snd (Tools.unregister "add" sync_registry) = true
  /\ Tools.get_tool "add" (fst (Tools.unregister "add" sync_registry)) = None.
Proof.
  assert (Hr : Tools.reachable sync_registry)
    by (apply Tools.reachable_register; apply Tools.reachable_new).
  split; [exact Hr |].
  destruct (unregister_removes_tool sync_registry "add" Hr) as [Hflag [Hgone _]].
  split; [exact Hflag | exact Hgone].
Defined.

(** X20: [unregister] changes nothing for any other name, and
    unregistering a name that is not registered returns [False] and
    leaves the registry as it is. *)
Theorem unregister_keeps_other_tools
        {W : Type} (r : Tools.ToolRegistry W) (n other : string) :
  n <> other ->
  Tools.get_tool other (fst (Tools.unregister n r)) = Tools.get_tool other r
  /\ (Tools.contains n r = false -> Tools.unregister n r = (r, false)).
Proof.
  intros Hne. unfold Tools.unregister, Tools.contains, Tools.get_tool.
  destruct (PyDict.contains n r); cbn [fst].
  - rewrite dict_get_del_ne by exact Hne. split; [reflexivity | discriminate].
  - split; reflexivity.
Qed.

Lemma unregister_keeps_other_tools_witness :
  "fetch" <> "add"
  /\ Tools.get_tool "add" (fst (Tools.unregister "fetch" sync_registry))
     = Tools.get_tool "add" sync_registry
  /\ Tools.unregister "fetch" sync_registry = (sync_registry, false).
Proof.
  assert (Hne : "fetch" <> "add") by discriminate.
  split; [exact Hne |].
  destruct (unregister_keeps_other_tools sync_registry "fetch" "add" Hne)
    as [Hsame Hnoop].
  split; [exact Hsame | apply Hnoop; reflexivity].
Defined.

(** X21: invoking a name that is not registered raises
    [ValueError("Tool not found: <name>")] through both entry points, and
    no tool body runs. *)
Theorem execute_unknown_tool_not_found
        {W : Type} (r : Tools.ToolRegistry W) (n : string)
        (kw : Tools.kwargs W) (w : W) :
  Tools.get_tool n r = None ->
  Tools.execute_tool n kw r w
  = (Raise (ValueError ("Tool not found: " ++ n)%string), w)
  /\ Tools.execute_tool_async n kw r w
     = (Raise (ValueError ("Tool not found: " ++ n)%string), w).
Proof.
  intros Hnone. unfold Tools.execute_tool, Tools.execute_tool_async.
  rewrite Hnone. split; reflexivity.
Qed.

Lemma execute_unknown_tool_not_found_witness :
  Tools.get_tool "nonexistent" sync_registry = None
  /\ Tools.execute_tool "nonexistent" [] sync_registry []
     = (Raise (ValueError "Tool not found: nonexistent"), []).
Proof.
  split; [reflexivity |].
  apply (execute_unknown_tool_not_found sync_registry "nonexistent" [] []).
  reflexivity.
Defined.

(** X22: [execute_tool_async] on a registered coroutine function awaits
    it: when the arguments match the signature, the body runs once on
    them and its result or its exception is what the caller gets; when
    they do not, the caller gets the [TypeError] of the call and the body
    has not run. *)
Theorem execute_tool_async_awaits_coroutine
        {W : Type} (r : Tools.ToolRegistry W) (n : string)
        (tool : Tools.ToolDefinition W)
        (bind_error : Tools.kwargs W -> option string)
        (body : Tools.kwargs W -> W -> outcome (Tools.pyobj W) * W)
        (kw : Tools.kwargs W) (w : W) :
  Tools.get_tool n r = Some tool ->
  Tools.function tool = Tools.AsyncFn bind_error body ->
  Tools.execute_tool_async n kw r w
  = match bind_error kw with
    | None => body kw w
    | Some msg => (Raise (TypeError msg), w)
    end.
Proof.
  intros Hget Hfun. unfold Tools.execute_tool_async.
  rewrite Hget, Hfun. cbn [Tools.call].
  destruct (bind_error kw); [reflexivity |].
  cbn. destruct (body kw w) as [[v | e] w']; reflexivity.
Qed.

Lemma execute_tool_async_awaits_coroutine_witness :
  Tools.get_tool "fetch" async_registry
  = Some (Tools.mkTool "fetch" "Fetch a document" [] (Tools.AsyncFn fetch_bind_error fetch_body) [])
  /\ Tools.execute_tool_async "fetch" [] async_registry []
     = (Return (Tools.PStr "document"), ["fetch ran"]).
Proof.
  split; [reflexivity |].
  apply (execute_tool_async_awaits_coroutine
           async_registry "fetch"
           (Tools.mkTool "fetch" "Fetch a document" []
                         (Tools.AsyncFn fetch_bind_error fetch_body) [])
           fetch_bind_error fetch_body [] []); reflexivity.
Defined.

Section RegistryLookupFacts.

Context {V : Type}.

Lemma dict_in_get (k : string) (v : V) (d : PyDict.t V) :
  NoDup (PyDict.keys d) -> In (k, v) d -> PyDict.get k d = Some v.
Proof.
  induction d as [| [k0 v0] d IH]; cbn; intros Hnd Hin; [contradiction |].
  inversion Hnd as [| ? ? Hnotin Hrest]; subst.
  destruct Hin as [[= -> ->] | Hin].
  - rewrite String.eqb_refl. reflexivity.
  - destruct (String.eqb_spec k k0) as [-> | Hne]; [| exact (IH Hrest Hin)].
    exfalso. apply Hnotin. apply (in_map fst) in Hin. exact Hin.
Qed.

End RegistryLookupFacts.

(** X23: in a registry built with [register] and [unregister],
    [get_tools_by_tag] returns exactly the registered tools that carry
    the tag: a tool is in the result if and only if it is the definition
    found under its own name and the tag is among its tags. A tool
    registered without tags is therefore never returned. *)
Theorem get_tools_by_tag_exact
        {W : Type} (r : Tools.ToolRegistry W) (tag : string)
        (tool : Tools.ToolDefinition W) :
  Tools.reachable r ->
  In tool (Tools.get_tools_by_tag tag r)
  <-> Tools.get_tool (Tools.name tool) r = Some tool /\ In tag (Tools.tags tool).
Proof.
  intros Hr. destruct (reachable_well_formed r Hr) as [Hnd Hall].
  unfold Tools.get_tools_by_tag, Tools.get_tool, Tools.has_tag.
  rewrite filter_In, existsb_exists. split.
  - intros [Hin [x [Hx Heq]]]. apply String.eqb_eq in Heq. subst x.
    split; [| exact Hx].
    unfold PyDict.values in Hin. apply in_map_iff in Hin.
    destruct Hin as [[k v] [Hv Hkv]]. cbn in Hv. subst v.
    rewrite Forall_forall in Hall. pose proof (Hall _ Hkv) as Hname.
    cbn in Hname. subst k. apply dict_in_get; assumption.
  - intros [Hget Htag]. split.
    + apply dict_get_in in Hget. unfold PyDict.values.
      apply in_map_iff. exists (Tools.name tool, tool). split; [reflexivity | exact Hget].
    + exists tag. split; [exact Htag | apply String.eqb_refl].
Qed.

Lemma get_tools_by_tag_exact_witness :
  Tools.reachable sync_registry
  /\ (In (Tools.mkTool "add" "Add two numbers" [("type", JStr "object")]
                       (Tools.SyncFn add_body) ["math"])
         (Tools.get_tools_by_tag "math" sync_registry)
      <-> Tools.get_tool "add" sync_registry
          = Some (Tools.mkTool "add" "Add two numbers" [("type", JStr "object")]
                               (Tools.SyncFn add_body) ["math"])
          /\ In "math" ["math"]).
Proof.
  assert (Hr : Tools.reachable sync_registry)
    by (apply Tools.reachable_register; apply Tools.reachable_new).
  split; [exact Hr |].
  apply (get_tools_by_tag_exact
           sync_registry "math"
           (Tools.mkTool "add" "Add two numbers" [("type", JStr "object")]
                         (Tools.SyncFn add_body) ["math"]) Hr).
Defined.

(** X24: in a registry built with [register] and [unregister], the
    definition found under a name carries that name, its schema is among
    the exported schemas, and no two registered tools share a name. *)
Theorem registered_tool_is_exported_under_its_name
        {W : Type} (r : Tools.ToolRegistry W) (n : string)
        (tool : Tools.ToolDefinition W) :
  Tools.reachable r ->
  Tools.get_tool n r = Some tool ->
  Tools.name tool = n
  /\ In (Tools.tool_schema tool) (Tools.get_tool_schemas r)
  /\ NoDup (map Tools.name (PyDict.values r)).
Proof.
  intros Hr Hget. destruct (reachable_well_formed r Hr) as [Hnd Hall].
  apply dict_get_in in Hget. repeat split.
  - rewrite Forall_forall in Hall. exact (Hall _ Hget).
  - rewrite get_tool_schemas_map. apply in_map. unfold PyDict.values.
    apply in_map_iff. exists (n, tool). split; [reflexivity | exact Hget].
  - apply reachable_names_NoDup. exact Hr.
Qed.

Lemma registered_tool_is_exported_under_its_name_witness :
  Tools.reachable async_registry
  /\ Tools.get_tool "fetch" async_registry
     = Some (Tools.mkTool "fetch" "Fetch a document" [] (Tools.AsyncFn fetch_bind_error fetch_body) [])
  /\ In (Tools.tool_schema
           (Tools.mkTool "fetch" "Fetch a document" [] (Tools.AsyncFn fetch_bind_error fetch_body) []))
        (Tools.get_tool_schemas async_registry).
Proof.
  assert (Hr : Tools.reachable async_registry)
    by (apply Tools.reachable_register; apply Tools.reachable_new).
  split; [exact Hr |]. split; [reflexivity |].
  destruct (registered_tool_is_exported_under_its_name
              async_registry "fetch"
              (Tools.mkTool "fetch" "Fetch a document" [] (Tools.AsyncFn fetch_bind_error fetch_body) [])
              Hr eq_refl) as [_ [Hin _]].
  exact Hin.
Defined.

(* ================================================================== *)
(** * Further properties of [agent_executor.py] *)
(* ================================================================== *)

Section StreamingFacts.

Import AgentExecutor.

Variable self : StreamingAgentExecutor.t.
Variable context : RequestContext.t.

Let task_id := RequestContext.task_id context.

Lemma queue_of_puts (us : list TaskUpdate.t) : queue_of (map Put us) = us.
Proof. induction us as [| u us IH]; cbn; [reflexivity | rewrite IH; reflexivity]. Qed.

Lemma process_calls_puts (us : list TaskUpdate.t) : process_calls (map Put us) = [].
Proof. induction us as [| u us IH]; cbn; [reflexivity | exact IH]. Qed.

Lemma first_text_some ps text :
  first_text ps = Some text ->
  exists pre post,
    ps = pre ++ TextPart text :: post /\ existsb is_TextPart pre = false.
Proof.
  induction ps as [| [t | uri | data] ps IH]; cbn; intros H.
  - discriminate.
  - injection H as ->. exists [], ps. split; reflexivity.
  - destruct (IH H) as (pre & post & -> & Hpre).
    exists (FilePart uri :: pre), post. split; [reflexivity | exact Hpre].
  - destruct (IH H) as (pre & post & -> & Hpre).
    exists (DataPart data :: pre), post. split; [reflexivity | exact Hpre].
Qed.


Lemma streaming_execute_run tr text updates result :
  _extract_user_message context = Some text ->
  text <> "" ->
  StreamingAgentExecutor.process_message_streaming self text context
  = (updates, result) ->
  StreamingAgentExecutor.execute self context tr
  = (match result with
     | Return _ => Return tt
     | Raise e => if is_Exception e then Return tt else Raise e
     end,
     tr ++ Process text context :: map Put updates
        ++ match result with
           | Return response => [Put (completed_update task_id response)]
           | Raise e =>
               if is_Exception e
               then [Put (failed_update task_id (exn_str e))]
               else []
           end).
Proof.
  intros Hx Hne Hrun.
  unfold StreamingAgentExecutor.execute, try_except, bind, _send_error,
    _send_response, StreamingAgentExecutor.call_process_message_streaming, put.
  rewrite Hx. destruct text as [| c text]; [congruence |]. cbn [Py.truthy_str negb].
  rewrite Hrun. destruct result as [response | e].
  - rewrite <- app_assoc. reflexivity.
  - destruct (is_Exception e).
    + rewrite <- app_assoc. reflexivity.
    + rewrite app_nil_r. reflexivity.
Qed.

End StreamingFacts.

(** X25: [execute] is a fault boundary for exceptions derived from
    [Exception] and for no others. When the processing capability raises
    [e], it has been called exactly once, on the extracted text, after
    the [Progress] event. If [e] derives from [Exception], [execute]
    returns normally and the next and last event is
    [Failed("Execution error: " + str(e))]; if it does not, [execute]
    raises [e] and emits nothing more. *)
Theorem execute_isolates_processing_fault
        (self : AgentExecutor.BaseAgentExecutor) (context : RequestContext.t)
        (text : string) (e : exn) :
  AgentExecutor._extract_user_message context = Some text ->
  text <> "" ->
  AgentExecutor.process_message self text context = Raise e ->
  fst (AgentExecutor.execute self context [])
  = (if is_Exception e then Return tt else Raise e)
  /\ process_calls (snd (AgentExecutor.execute self context [])) = [text]
  /\ events (AgentExecutor.execute self context)
     = Progress "Processing request..."
       :: (if is_Exception e
           then [Failed ("Execution error: " ++ exn_str e)]
           else []).
Proof.
  intros Hx Hne Hp. unfold events. destruct (is_Exception e) eqn:He.
  - rewrite (execute_raises self context [] text e Hx Hne Hp He).
    cbn. repeat split.
  - rewrite (execute_propagates self context [] text e Hx Hne Hp He).
    cbn. repeat split.
Qed.

Lemma execute_isolates_processing_fault_witness :
  AgentExecutor._extract_user_message t1_context = Some "hi"
  /\ "hi" <> ""
  /\ events (AgentExecutor.execute failing_agent t1_context)
     = [ Progress "Processing request...";
         Failed "Execution error: model unavailable" ]
  /\ fst (AgentExecutor.execute cancelled_agent t1_context []) = Raise CancelledError
  /\ events (AgentExecutor.execute cancelled_agent t1_context)
     = [ Progress "Processing request..." ].
Proof.
  assert (Hne : "hi" <> "") by discriminate.
  split; [reflexivity |]. split; [exact Hne |].
  destruct (execute_isolates_processing_fault
              failing_agent t1_context "hi"
              (mkExn "RuntimeError" "model unavailable" true) eq_refl Hne eq_refl)
    as [_ [_ Hev]].
  destruct (execute_isolates_processing_fault
              cancelled_agent t1_context "hi" CancelledError eq_refl Hne eq_refl)
    as [Hraise [_ Hev']].
  split; [exact Hev |]. split; [exact Hraise | exact Hev'].
Defined.

(** X26: [execute] only appends to the event queue: started on any
    trace it leaves that trace in place and adds what it adds on an
    empty one. It calls the processing capability at most once and emits
    neither a [Submitted] nor a [Canceled] event. *)
Theorem execute_only_appends
        (self : AgentExecutor.BaseAgentExecutor) (context : RequestContext.t)
        (tr : list effect) :
  snd (AgentExecutor.execute self context tr)
  = tr ++ snd (AgentExecutor.execute self context [])
  /\ (length (process_calls (snd (AgentExecutor.execute self context []))) <= 1)%nat
  /\ ~ In Submitted (events (AgentExecutor.execute self context))
  /\ ~ In Canceled (events (AgentExecutor.execute self context)).
Proof.
  destruct (AgentExecutor._extract_user_message context) as [text |] eqn:Hx.
  - destruct text as [| c text].
    + unfold events.
      rewrite !execute_no_content by (right; exact Hx). cbn.
      repeat split; try lia; intros [H | [H | []]]; discriminate.
    + assert (Hne : String c text <> "") by discriminate.
      destruct (AgentExecutor.process_message self (String c text) context)
        as [r | e] eqn:Hp; unfold events.
      * rewrite !(execute_returns self context _ _ r Hx Hne Hp). cbn.
        repeat split; try lia; intros [H | [H | []]]; discriminate.
      * destruct (is_Exception e) eqn:He.
        -- rewrite !(execute_raises self context _ _ e Hx Hne Hp He). cbn.
           repeat split; try lia; intros [H | [H | []]]; discriminate.
        -- rewrite !(execute_propagates self context _ _ e Hx Hne Hp He). cbn.
           repeat split; try lia; intros [H | []]; discriminate.
  - unfold events.
    rewrite !execute_no_content by (left; exact Hx). cbn.
    repeat split; try lia; intros [H | [H | []]]; discriminate.
Qed.

(** X27: [_extract_user_message] returns [None] exactly for the requests
    without a text part (no message, no parts, or parts of other kinds
    only); otherwise it returns the text of the first text part, whatever
    precedes or follows it. *)
Theorem extract_user_message_characterised (context : RequestContext.t) :
  (AgentExecutor._extract_user_message context = None
   <-> has_text_part context = false)
  /\ (forall text,
        AgentExecutor._extract_user_message context = Some text
        <-> exists m pre post,
              RequestContext.message context = Some m
              /\ parts m = pre ++ TextPart text :: post
              /\ existsb is_TextPart pre = false).
Proof.
  assert (Hsome : forall text,
             AgentExecutor._extract_user_message context = Some text
             <-> exists m pre post,
                   RequestContext.message context = Some m
                   /\ parts m = pre ++ TextPart text :: post
                   /\ existsb is_TextPart pre = false).
  { intros text. unfold AgentExecutor._extract_user_message. split.
    - destruct (RequestContext.message context) as [m |]; [| discriminate].
      intros H.
      assert (Hf : AgentExecutor.first_text (parts m) = Some text)
        by (destruct (parts m); [discriminate | exact H]).
      destruct (first_text_some _ _ Hf) as (pre & post & Hps & Hpre).
      exists m, pre, post. auto.
    - intros (m & pre & post & -> & Hps & Hpre). rewrite Hps.
      rewrite <- (first_text_first pre text post Hpre).
      destruct (pre ++ TextPart text :: post) eqn:E; [| reflexivity].
      destruct pre; discriminate. }
  split; [| exact Hsome]. split.
  - assert (Hinv : forall ps, AgentExecutor.first_text ps = None ->
                              existsb is_TextPart ps = false).
    { induction ps as [| [t | u | d] ps IH]; cbn; intros H;
        [reflexivity | discriminate | exact (IH H) | exact (IH H)]. }
    unfold AgentExecutor._extract_user_message, has_text_part.
    destruct (RequestContext.message context) as [m |]; [| reflexivity].
    destruct (parts m) as [| p ps]; [reflexivity |]. apply Hinv.
  - apply extract_no_text_part.
Qed.

(** X28: the streaming [execute], for a request with a non-empty first
    text, emits no status update of its own: the events are the updates
    the streaming capability put, in order, followed by [Completed] with
    the assistant message when it returned, or by [Failed(str(e))],
    without the prefix of the base executor, when it raised an exception
    derived from [Exception]; it returns normally in these two cases.
    When the capability raised any other exception, nothing follows its
    updates and [execute] raises that exception. *)
Theorem streaming_execute_events
        (self : StreamingAgentExecutor.t) (context : RequestContext.t)
        (text : string) (updates : list TaskUpdate.t) (result : outcome string) :
  AgentExecutor._extract_user_message context = Some text ->
  text <> "" ->
  StreamingAgentExecutor.process_message_streaming self text context
  = (updates, result) ->
  fst (StreamingAgentExecutor.execute self context [])
  = match result with
    | Return _ => Return tt
    | Raise e => if is_Exception e then Return tt else Raise e
    end
  /\ process_calls (snd (StreamingAgentExecutor.execute self context [])) = [text]
  /\ events (StreamingAgentExecutor.execute self context)
     = map event_of updates
       ++ match result with
          | Return response =>
              [Completed (Some {| role := ASSISTANT;
                                  parts := [TextPart response] |})]
          | Raise e => if is_Exception e then [Failed (exn_str e)] else []
          end.
Proof.
  intros Hx Hne Hrun. unfold events.
  rewrite (streaming_execute_run self context [] text updates result Hx Hne Hrun).
  cbn [fst snd app process_calls queue_of].
  rewrite process_calls_app, queue_of_app, process_calls_puts, queue_of_puts, map_app.
  destruct result as [response | e]; [cbn; repeat split |].
  destruct (is_Exception e); cbn; repeat split.
Qed.

Lemma streaming_execute_events_witness :
  AgentExecutor._extract_user_message t1_context = Some "hi"
  /\ "hi" <> ""
  /\ events (StreamingAgentExecutor.execute stepwise_agent t1_context)
     = [ Progress "retrieving"; Progress "writing";
         Completed (Some {| role := ASSISTANT;
                            parts := [TextPart "hello back"] |}) ]
  /\ events (StreamingAgentExecutor.execute
               (StreamingAgentExecutor.of_base cancelled_agent) t1_context)
     = [].
Proof.
  assert (Hne : "hi" <> "") by discriminate.
  split; [reflexivity |]. split; [exact Hne |].
  destruct (streaming_execute_events
              stepwise_agent t1_context "hi"
              [ AgentExecutor.in_progress_update "t1" "retrieving";
                AgentExecutor.in_progress_update "t1" "writing" ]
              (Return "hello back") eq_refl Hne eq_refl) as [_ [_ Hev]].
  destruct (streaming_execute_events
              (StreamingAgentExecutor.of_base cancelled_agent) t1_context "hi"
              [] (Raise CancelledError) eq_refl Hne eq_refl) as [_ [_ Hev']].
  split; [exact Hev | exact Hev'].
Defined.



